(** * Storage backends and the streamed transfer adapter of a Git LFS server

    A shallow embedding of

    - [gitlfs/server/transfer/basic_local.py]: [LocalStorage],
      [ObjectsView.get_storage_url] and [BasicStreamedTransferAdapter];
    - [giftless/transfer/storage/google_cloud.py]: [GoogleCloudBlobStorage].

    Python values are embedded as follows: [str] as [string], [int] as [Z],
    [dict] as a [gmap] with string keys, a raised exception as the [Raise]
    branch of [result].  The operating system's file tree, the flask URL
    builder, the wall clock and the Google Cloud client are the environment:
    the first is a small executable model, the others are section variables. *)

From Stdlib Require Import ZArith Ascii String List.
From stdpp Require Import gmap strings list fin_maps.

Open Scope string_scope.
Open Scope Z_scope.

(** ** Python values *)

(** JSON-like values held by the dictionaries the adapters return. *)
#[warnings="-register-all"]
Inductive pyval : Type :=
  | PyNone
  | PyBool (b : bool)
  | PyInt (n : Z)
  | PyStr (s : string)
  | PyDict (d : gmap string pyval).

Abbreviation pydict := (gmap string pyval).

(** [d[k1][k2]...]: a walk through nested dictionaries. *)
Fixpoint lookup_path (ks : list string) (v : pyval) : option pyval :=
  match ks with
  | [] => Some v
  | k :: ks' =>
      match v with
      | PyDict d => match d !! k with
                    | Some v' => lookup_path ks' v'
                    | None => None
                    end
      | _ => None
      end
  end.

(** ** Exceptions *)

Inductive gcs_error : Type :=
  | Conflict
  | Forbidden
  | GcsNotFound
  | TooManyRequests
  | ServiceUnavailable.

Inductive exn : Type :=
  | NotFound (msg : string)
  | ObjectNotFound (msg : string)
  | FileNotFoundError
  | FileExistsError
  | NotADirectoryError
  | IsADirectoryError
  | AttributeError
  | ValueError (msg : string)
  | RecursionError
  | GoogleCloudError (e : gcs_error).

Inductive result (A : Type) : Type :=
  | Ok (a : A)
  | Raise (e : exn).
Arguments Ok {A} a.
Arguments Raise {A} e.

(** Sequencing: an exception raised by the first computation propagates. *)
#[global] Instance result_bind : MBind result := λ A B k r,
  match r with
  | Ok a => k a
  | Raise e => Raise e
  end.

#[global] Instance result_ret : MRet result := λ A a, Ok a.

(** ** Python string methods *)

Module PyStr.

Definition is_empty (s : string) : bool :=
  match s with
  | EmptyString => true
  | String _ _ => false
  end.

(** [s.startswith(t)] *)
Definition startswith (s t : string) : bool := String.prefix t s.

(** [s.endswith(t)] *)
Definition endswith (s t : string) : bool :=
  String.prefix (String.rev t) (String.rev s).

(** [s[1:]] *)
Definition tail (s : string) : string :=
  match s with
  | EmptyString => EmptyString
  | String _ s' => s'
  end.

(** [s.rstrip(c)] *)
Fixpoint rstrip (c : ascii) (s : string) : string :=
  match s with
  | EmptyString => EmptyString
  | String a s' =>
      let r := rstrip c s' in
      if is_empty r && Ascii.eqb a c then EmptyString else String a r
  end.

(** [s == c * len(s)] *)
Fixpoint all_char (c : ascii) (s : string) : bool :=
  match s with
  | EmptyString => true
  | String a s' => Ascii.eqb a c && all_char c s'
  end.

(** [s[:s.rfind(c) + 1]]: the part of [s] up to and including the last
    occurrence of [c]; [None] when [c] does not occur, where the slice is
    empty. *)
Fixpoint upto_last (c : ascii) (s : string) : option string :=
  match s with
  | EmptyString => None
  | String a s' =>
      match upto_last c s' with
      | Some h => Some (String a h)
      | None => if Ascii.eqb a c then Some (String a EmptyString) else None
      end
  end.

(** [s[s.rfind(c) + 1:]]: the part of [s] after the last occurrence of
    [c]; all of [s] when [c] does not occur. *)
Fixpoint after_last (c : ascii) (s : string) : string :=
  match s with
  | EmptyString => EmptyString
  | String a s' =>
      match upto_last c s' with
      | Some _ => after_last c s'
      | None => if Ascii.eqb a c then s' else s
      end
  end.

(** [s.split(c)] *)
Fixpoint split (c : ascii) (s : string) : list string :=
  match s with
  | EmptyString => [EmptyString]
  | String a s' =>
      let r := split c s' in
      if Ascii.eqb a c then EmptyString :: r
      else match r with
           | h :: t => String a h :: t
           | [] => [String a EmptyString]
           end
  end.

End PyStr.

(** ** [os.path] on POSIX *)

Module PosixPath.

Definition sep : string := "/".

(** One round of the loop of [posixpath.join]. *)
Definition join_step (path b : string) : string :=
  if PyStr.startswith b sep then b
  else if PyStr.is_empty path || PyStr.endswith path sep then path ++ b
  else path ++ sep ++ b.

(** [os.path.join(a, *p)] *)
Definition join (a : string) (p : list string) : string :=
  fold_left join_step p a.

(** [os.path.dirname(p)] *)
Definition dirname (p : string) : string :=
  let head := default EmptyString (PyStr.upto_last "/" p) in
  if negb (PyStr.is_empty head) && negb (PyStr.all_char "/" head)
  then PyStr.rstrip "/" head
  else head.

(** [os.path.split(p)] *)
Definition split (p : string) : string * string :=
  let head := default EmptyString (PyStr.upto_last "/" p) in
  let tail := PyStr.after_last "/" p in
  (if negb (PyStr.is_empty head) && negb (PyStr.all_char "/" head)
   then PyStr.rstrip "/" head
   else head,
   tail).

End PosixPath.

(** ** Binary streams ([typing.BinaryIO]) *)

Module BinaryIO.

(** A readable stream: its whole content and the read position. *)
Record t : Type := { data : list Byte.byte; pos : nat }.

(** The bytes not read yet. *)
Definition remaining (s : t) : list Byte.byte := drop (pos s) (data s).

(** [s.read()]: everything from the position to the end. *)
Definition read (s : t) : list Byte.byte * t :=
  (remaining s, {| data := data s; pos := Nat.max (pos s) (length (data s)) |}).

(** [s.tell()] *)
Definition tell (s : t) : Z := Z.of_nat (pos s).

(** A stream freshly opened on [bs]. *)
Definition of_bytes (bs : list Byte.byte) : t := {| data := bs; pos := 0 |}.

End BinaryIO.

(** ** The file tree

    A location is the list of the names from the root to a node.  There
    are no symbolic links.  A path is walked as the kernel walks it: every
    component that is not empty is looked up in the location reached so
    far, which has to be a directory. *)

Module FS.

Inductive node : Type :=
  | File (content : list Byte.byte)
  | Dir.

Record t : Type := {
  cwd : list string;
  (** what [stat] reports as the size of a directory *)
  dir_size : nat;
  nodes : gmap (list string) node
}.

Definition with_nodes (fs : t) (m : gmap (list string) node) : t :=
  {| cwd := cwd fs; dir_size := dir_size fs; nodes := m |}.

(** The root always is a directory. *)
Definition node_at (m : gmap (list string) node) (q : list string) : option node :=
  match q with
  | [] => Some Dir
  | _ => m !! q
  end.

(** One component of a walk from the location [q]: an empty component is
    skipped; any other is looked up in [q], which has to be a directory:
    [.] stays, [..] goes to the parent (the root is its own parent) and a
    name goes to the entry of that name, which need not exist. *)
Definition step (m : gmap (list string) node) (q : list string) (c : string)
  : result (list string) :=
  if String.eqb c EmptyString then Ok q
  else match node_at m q with
       | Some Dir =>
           if String.eqb c "." then Ok q
           else if String.eqb c ".." then Ok (removelast q)
           else Ok (q ++ [c])%list
       | Some (File _) => Raise NotADirectoryError
       | None => Raise FileNotFoundError
       end.

(** The walk along the components [cs]. *)
Fixpoint walk (m : gmap (list string) node) (cs : list string) (q : list string)
  : result (list string) :=
  match cs with
  | [] => Ok q
  | c :: cs' => q' ← step m q c; walk m cs' q'
  end.

(** The location a path names: the walk starts at the root for an
    absolute path and at the working directory otherwise. *)
Definition resolve (fs : t) (p : string) : result (list string) :=
  walk (nodes fs) (PyStr.split "/" p)
       (if PyStr.startswith p "/" then [] else cwd fs).

(** [os.stat(p)].  A path with a trailing separator names a directory
    only. *)
Definition stat_r (fs : t) (p : string) : result node :=
  if PyStr.is_empty p then Raise FileNotFoundError
  else
    q ← resolve fs p;
    match node_at (nodes fs) q with
    | Some (File c) =>
        if PyStr.endswith p "/" then Raise NotADirectoryError else Ok (File c)
    | Some Dir => Ok Dir
    | None => Raise FileNotFoundError
    end.

(** [os.stat(p)] with its errors caught, as [os.path] does. *)
Definition stat (fs : t) (p : string) : option node :=
  match stat_r fs p with
  | Ok n => Some n
  | Raise _ => None
  end.

(** [os.path.exists(p)] *)
Definition exists_ (fs : t) (p : string) : bool :=
  match stat fs p with
  | Some _ => true
  | None => false
  end.

(** [os.path.isdir(p)] *)
Definition isdir (fs : t) (p : string) : bool :=
  match stat fs p with
  | Some Dir => true
  | _ => false
  end.

(** [os.path.isfile(p)] *)
Definition isfile (fs : t) (p : string) : bool :=
  match stat fs p with
  | Some (File _) => true
  | _ => false
  end.

(** [os.path.getsize(p)] *)
Definition getsize (fs : t) (p : string) : result Z :=
  n ← stat_r fs p;
  match n with
  | File c => Ok (Z.of_nat (length c))
  | Dir => Ok (Z.of_nat (dir_size fs))
  end.

(** [os.mkdir(p)]: the location must not exist; the walk has found the
    directory it is to be entered in. *)
Definition mkdir (fs : t) (p : string) : result unit * t :=
  if PyStr.is_empty p then (Raise FileNotFoundError, fs)
  else match resolve fs p with
       | Ok q =>
           match node_at (nodes fs) q with
           | Some _ => (Raise FileExistsError, fs)
           | None => (Ok (), with_nodes fs (<[q := Dir]> (nodes fs)))
           end
       | Raise e => (Raise e, fs)
       end.

(** [os.makedirs(name)], [exist_ok] left false.  The recursion is on the
    head of the path, which is shorter than the path; [fuel] bounds its
    depth by the length of the path, which it never reaches.  The
    interpreter's own limit on the depth of recursion is not part of the
    model. *)
Fixpoint makedirs_go (fuel : nat) (fs : t) (name : string) : result unit * t :=
  match fuel with
  | O => (Raise RecursionError, fs)
  | S fuel' =>
      let '(head, tail) := PosixPath.split name in
      let '(head, tail) :=
        if PyStr.is_empty tail then PosixPath.split head else (head, tail) in
      if negb (PyStr.is_empty head) && negb (PyStr.is_empty tail)
         && negb (exists_ fs head)
      then
        match makedirs_go fuel' fs head with
        | (Ok _, fs1) | (Raise FileExistsError, fs1) =>
            if String.eqb tail "." then (Ok (), fs1) else mkdir fs1 name
        | (Raise e, fs1) => (Raise e, fs1)
        end
      else mkdir fs name
  end.

Definition makedirs (fs : t) (name : string) : result t :=
  match makedirs_go (S (String.length name)) fs name with
  | (Ok _, fs') => Ok fs'
  | (Raise e, _) => Raise e
  end.

(** A file object opened for writing: where it is, and what was written. *)
Record wfile : Type := { loc : list string; written : list Byte.byte }.

(** [open(p, 'bw')]: the file is created, or truncated when it exists. *)
Definition open_w (fs : t) (p : string) : result (wfile * t) :=
  if PyStr.is_empty p then Raise FileNotFoundError
  else if PyStr.endswith p "/" then Raise IsADirectoryError
  else
    q ← resolve fs p;
    match node_at (nodes fs) q with
    | Some Dir => Raise IsADirectoryError
    | _ =>
        Ok ({| loc := q; written := [] |},
            with_nodes fs (<[q := File []]> (nodes fs)))
    end.

(** [f.write(buf)] *)
Definition write (f : wfile) (buf : list Byte.byte) (fs : t) : wfile * t :=
  let w := (written f ++ buf)%list in
  ({| loc := loc f; written := w |},
   with_nodes fs (<[loc f := File w]> (nodes fs))).

(** [f.tell()] *)
Definition tell (f : wfile) : Z := Z.of_nat (length (written f)).

(** [open(p, 'br')] *)
Definition open_r (fs : t) (p : string) : result BinaryIO.t :=
  n ← stat_r fs p;
  match n with
  | File c => Ok (BinaryIO.of_bytes c)
  | Dir => Raise IsADirectoryError
  end.

End FS.

(** [shutil.copyfileobj(fsrc, fdst)]: reads [fsrc] to its end, writing what
    it reads to [fdst]. *)
Definition copyfileobj (fsrc : BinaryIO.t) (fdst : FS.wfile) (fs : FS.t)
  : BinaryIO.t * FS.wfile * FS.t :=
  let '(buf, fsrc') := BinaryIO.read fsrc in
  let '(fdst', fs') := FS.write fdst buf fs in
  (fsrc', fdst', fs').

(** ** [basic_local.LocalStorage] *)

Module LocalStorage.

Record t : Type := { path : string }.

Definition _create_path (fs : FS.t) (p : string) : result FS.t :=
  if negb (FS.isdir fs p) then FS.makedirs fs p else Ok fs.

Definition __init__ (path : option string) (fs : FS.t) : result (t * FS.t) :=
  let path := match path with
              | None => "lfs-storage"
              | Some p => p
              end in
  fs' ← _create_path fs path;
  Ok ({| path := path |}, fs').

Definition _get_path (self : t) (prefix oid : string) : string :=
  PosixPath.join (path self) [prefix; oid].

Definition get (self : t) (fs : FS.t) (prefix oid : string) : result BinaryIO.t :=
  let path := _get_path self prefix oid in
  if FS.isfile fs path then FS.open_r fs path
  else Raise (NotFound "Requested object was not found").

Definition put (self : t) (fs : FS.t) (prefix oid : string)
           (data_stream : BinaryIO.t) : result (Z * BinaryIO.t * FS.t) :=
  let path := _get_path self prefix oid in
  let directory := PosixPath.dirname path in
  fs1 ← _create_path fs directory;
  '(dest, fs2) ← FS.open_w fs1 path;
  let '(data_stream', dest', fs3) := copyfileobj data_stream dest fs2 in
  Ok (FS.tell dest', data_stream', fs3).

Definition exists_ (self : t) (fs : FS.t) (prefix oid : string) : bool :=
  FS.isfile fs (_get_path self prefix oid).

Definition get_size (self : t) (fs : FS.t) (prefix oid : string) : result Z :=
  if exists_ self fs prefix oid
  then FS.getsize fs (_get_path self prefix oid)
  else Ok 0.

End LocalStorage.

(** ** [flask.Response] *)

Record Response : Type := {
  response : option BinaryIO.t;
  status : Z;
  direct_passthrough : bool
}.

(** ** [basic_local.ObjectsView] *)

Module ObjectsView.

Record t : Type := { storage : LocalStorage.t }.

(** [stream] is [request.stream]. *)
Definition put (self : t) (fs : FS.t) (stream : BinaryIO.t)
           (organization repo oid : string) : result (Response * BinaryIO.t * FS.t) :=
  '(_, stream', fs') ← LocalStorage.put (storage self) fs
                         (organization ++ "/" ++ repo) oid stream;
  Ok ({| response := None; status := 200; direct_passthrough := false |},
      stream', fs').

Definition get (self : t) (fs : FS.t) (organization repo oid : string)
  : result Response :=
  let path := PosixPath.join organization [repo] in
  if LocalStorage.exists_ (storage self) fs path oid then
    file ← LocalStorage.get (storage self) fs path oid;
    Ok {| response := Some file; status := 200; direct_passthrough := true |}
  else Raise (NotFound "The object was not found").

Definition verify (self : t) (organization repo : string) : list string :=
  ["local-base-verify"; organization; repo].

Section WithFlask.

(** [flask.url_for(endpoint, **values)] *)
Variable url_for : string → pydict → string.

Definition __name__ : string := "ObjectsView".

Definition get_storage_url (operation organization repo : string)
           (oid : option string) : string :=
  let op_name := __name__ ++ ":" ++ operation in
  url_for op_name
          (<["organization" := PyStr organization]>
           (<["repo" := PyStr repo]>
            (<["oid" := match oid with
                        | Some o => PyStr o
                        | None => PyNone
                        end]>
             (<["_external" := PyBool true]> ∅)))).

End WithFlask.

End ObjectsView.

(** ** [basic_local.BasicStreamedTransferAdapter] *)

Module BasicStreamedTransferAdapter.

Record t : Type := { storage : LocalStorage.t; action_lifetime : Z }.

Section WithFlask.

Variable url_for : string → pydict → string.

Definition action (href : string) (expires_in : Z) : pyval :=
  PyDict (<["href" := PyStr href]>
          (<["header" := PyDict (<["Authorization" :=
                                    PyStr "Basic yourmamaisauthorized"]> ∅)]>
           (<["expires_in" := PyInt expires_in]> ∅))).

Definition upload (self : t) (fs : FS.t) (organization repo oid : string)
           (size : Z) : result pydict :=
  let response : pydict :=
    <["oid" := PyStr oid]>
    (<["size" := PyInt size]>
     (<["authenticated" := PyBool true]> ∅)) in
  let prefix := PosixPath.join organization [repo] in
  needed ← (if negb (LocalStorage.exists_ (storage self) fs prefix oid)
            then Ok true
            else stored ← LocalStorage.get_size (storage self) fs prefix oid;
                 Ok (negb (stored =? size)));
  if (needed : bool) then
    Ok (<["actions" :=
           PyDict (<["upload" :=
                      action (ObjectsView.get_storage_url url_for "put"
                                organization repo (Some oid))
                             (action_lifetime self)]>
                   (<["verify" :=
                       action (ObjectsView.get_storage_url url_for "verify"
                                 organization repo None)
                              (action_lifetime self)]> ∅))]> response)
  else Ok response.

Definition download (self : t) (fs : FS.t) (organization repo oid : string)
           (size : Z) : result pydict :=
  let response : pydict :=
    <["oid" := PyStr oid]> (<["size" := PyInt size]> ∅) in
  let prefix := PosixPath.join organization [repo] in
  if negb (LocalStorage.exists_ (storage self) fs prefix oid) then
    Ok (<["error" :=
           PyDict (<["code" := PyInt 404]>
                   (<["message" := PyStr "Object does not exist"]> ∅))]>
        response)
  else
    stored ← LocalStorage.get_size (storage self) fs prefix oid;
    if negb (stored =? size) then
      Ok (<["error" :=
             PyDict (<["code" := PyInt 422]>
                     (<["message" := PyStr "Object size does not match"]> ∅))]>
          response)
    else
      Ok (<["authenticated" := PyBool true]>
          (<["actions" :=
              PyDict (<["download" :=
                         action (ObjectsView.get_storage_url url_for "get"
                                   organization repo (Some oid))
                                (action_lifetime self)]> ∅)]>
           response)).

End WithFlask.

End BasicStreamedTransferAdapter.

(** ** The Google Cloud Storage service, as seen through its client

    [buckets] maps a bucket name to its blobs.  [create_refusal] is the
    error with which the service turns down a request to create a bucket
    ([Forbidden], or [Conflict] for a name taken in another project);
    [create_requests] records the requests to create a bucket. *)

Module Gcs.

Abbreviation blobs := (gmap string (list Byte.byte)).

Record t : Type := {
  buckets : gmap string blobs;
  create_refusal : option gcs_error;
  create_requests : list string
}.

Definition with_buckets (svc : t) (bs : gmap string blobs) : t :=
  {| buckets := bs;
     create_refusal := create_refusal svc;
     create_requests := create_requests svc |}.

(** [client.create_bucket(name)] *)
Definition create_bucket (name : string) (svc : t) : result unit * t :=
  let svc' := {| buckets := buckets svc;
                 create_refusal := create_refusal svc;
                 create_requests := (create_requests svc ++ [name])%list |} in
  match create_refusal svc with
  | Some e => (Raise (GoogleCloudError e), svc')
  | None =>
      match buckets svc !! name with
      | Some _ => (Raise (GoogleCloudError Conflict), svc')
      | None => (Ok (), with_buckets svc' (<[name := ∅]> (buckets svc)))
      end
  end.

(** [client.get_bucket(name)]: asks the service for the bucket. *)
Definition get_bucket (name : string) (svc : t) : result blobs :=
  match buckets svc !! name with
  | Some b => Ok b
  | None => Raise (GoogleCloudError GcsNotFound)
  end.

(** [client.bucket(name).blob(path).exists()] *)
Definition blob_exists (name path : string) (svc : t) : bool :=
  match buckets svc !! name with
  | Some b => bool_decide (is_Some (b !! path))
  | None => false
  end.

(** [bucket.get_blob(path)], [None] when there is no such blob. *)
Definition get_blob (b : blobs) (path : string) : option (list Byte.byte) :=
  b !! path.

(** [blob.download_as_string()] *)
Definition download_as_string (name path : string) (svc : t)
  : result (list Byte.byte) :=
  match buckets svc !! name with
  | Some b => match b !! path with
              | Some content => Ok content
              | None => Raise (GoogleCloudError GcsNotFound)
              end
  | None => Raise (GoogleCloudError GcsNotFound)
  end.

(** [blob.upload_from_file(file_obj)]: with [rewind] and [size] left at
    their defaults the upload is a resumable one, which refuses a stream
    that is not at its start before it sends anything, and otherwise
    uploads the stream to its end. *)
Definition upload_from_file (name path : string) (file_obj : BinaryIO.t)
           (svc : t) : result BinaryIO.t * t :=
  if negb (BinaryIO.tell file_obj =? 0)
  then (Raise (ValueError "Stream must be at beginning."), svc)
  else
    match buckets svc !! name with
    | Some b =>
        let '(content, file_obj') := BinaryIO.read file_obj in
        (Ok file_obj',
         with_buckets svc (<[name := <[path := content]> b]> (buckets svc)))
    | None => (Raise (GoogleCloudError GcsNotFound), svc)
    end.

End Gcs.

(** ** [google_cloud.GoogleCloudBlobStorage] *)

Module GoogleCloudBlobStorage.

(** The fields set by the constructor; what [storage_client] gives access
    to is the [Gcs.t] the methods take. *)
Record t : Type := { bucket_name : string; path_prefix : option string }.

Definition dquote : string := String (ascii_of_nat 34) EmptyString.

Section WithClient.

(** [storage.Client.from_service_account_json(path)] *)
Variable from_service_account_json : string → result unit.

(** [datetime.now(tz=timezone.utc)], in seconds *)
Variable now : Z.

(** [bucket.generate_signed_url] applied to keyword arguments, by the
    name of the bucket *)
Variable generate_signed_url : string → pydict → string.

Definition _init_container (self : t) (svc : Gcs.t) : result unit * Gcs.t :=
  match Gcs.create_bucket (bucket_name self) svc with
  | (Raise (GoogleCloudError Conflict), svc') => (Ok (), svc')
  | r => r
  end.

Definition __init__ (bucket_name account_json_path : string)
           (path_prefix : option string) (svc : Gcs.t) : result t * Gcs.t :=
  let self := {| bucket_name := bucket_name; path_prefix := path_prefix |} in
  match from_service_account_json account_json_path with
  | Raise e => (Raise e, svc)
  | Ok _ =>
      match _init_container self svc with
      | (Ok _, svc') => (Ok self, svc')
      | (Raise e, svc') => (Raise e, svc')
      end
  end.

Definition _get_blob_path (self : t) (prefix oid : string) : string :=
  let storage_prefix :=
    match path_prefix self with
    | None => EmptyString
    | Some EmptyString => EmptyString
    | Some (String c rest as p) => if Ascii.eqb c "/" then rest else p
    end in
  PosixPath.join storage_prefix [prefix; oid].

Definition get (self : t) (svc : Gcs.t) (prefix oid : string)
  : result (list Byte.byte) :=
  Gcs.download_as_string (bucket_name self) (_get_blob_path self prefix oid) svc.

Definition put (self : t) (svc : Gcs.t) (prefix oid : string)
           (data_stream : BinaryIO.t) : result (Z * BinaryIO.t) * Gcs.t :=
  match Gcs.upload_from_file (bucket_name self)
                             (_get_blob_path self prefix oid) data_stream svc with
  | (Ok data_stream', svc') => (Ok (BinaryIO.tell data_stream', data_stream'), svc')
  | (Raise e, svc') => (Raise e, svc')
  end.

Definition exists_ (self : t) (svc : Gcs.t) (prefix oid : string) : bool :=
  Gcs.blob_exists (bucket_name self) (_get_blob_path self prefix oid) svc.

Definition get_size (self : t) (svc : Gcs.t) (prefix oid : string) : result Z :=
  bucket ← Gcs.get_bucket (bucket_name self) svc;
  if Gcs.blob_exists (bucket_name self) (_get_blob_path self prefix oid) svc
  then match Gcs.get_blob bucket (_get_blob_path self prefix oid) with
       | Some content => Ok (Z.of_nat (length content))
       | None => Raise AttributeError
       end
  else Raise (ObjectNotFound "Object does not exist").

Definition _get_signed_url (self : t) (prefix oid : string) (expires_in : Z)
           (filename : option string) : string :=
  let token_expires := now + expires_in in
  let extra_args : pydict :=
    match filename with
    | Some (String _ _ as f) =>
        <["content_disposition" :=
           PyStr ("attachment; filename=" ++ dquote ++ f ++ dquote)]> ∅
    | _ => ∅
    end in
  let url :=
    generate_signed_url (bucket_name self)
      (<["expiration" := PyInt token_expires]>
       (<["version" := PyStr "v4"]> ∅)) in
  url.

(** [extra.get('filename') if extra else None] *)
Definition filename_of (extra : option (gmap string string)) : option string :=
  match extra with
  | Some d => if bool_decide (d = ∅) then None else d !! "filename"
  | None => None
  end.

Definition get_upload_action (self : t) (prefix oid : string)
           (size expires_in : Z) (extra : option (gmap string string)) : pydict :=
  let filename := filename_of extra in
  <["actions" :=
     PyDict (<["upload" :=
                PyDict (<["href" := PyStr (_get_signed_url self prefix oid
                                             expires_in filename)]>
                        (<["header" := PyDict (<["x-ms-blob-type" :=
                                                  PyStr "BlockBlob"]> ∅)]>
                         (<["expires_in" := PyInt expires_in]> ∅)))]> ∅)]> ∅.

Definition get_download_action (self : t) (prefix oid : string)
           (size expires_in : Z) (extra : option (gmap string string)) : pydict :=
  let filename := filename_of extra in
  <["actions" :=
     PyDict (<["download" :=
                PyDict (<["href" := PyStr (_get_signed_url self prefix oid
                                             expires_in filename)]>
                        (<["header" := PyDict ∅]>
                         (<["expires_in" := PyInt 900]> ∅)))]> ∅)]> ∅.

End WithClient.

End GoogleCloudBlobStorage.

(** ** Vocabulary of the statements *)

(** [k in d] *)
Definition has_key (d : pydict) (k : string) : bool :=
  match d !! k with
  | Some _ => true
  | None => false
  end.

(** The body of an [error] entry. *)
Definition error_body (code : Z) (message : string) : pyval :=
  PyDict (<["code" := PyInt code]> (<["message" := PyStr message]> ∅)).

(** The object is in the local store with the size the client declares. *)
Definition already_stored (st : LocalStorage.t) (fs : FS.t) (prefix oid : string)
           (size : Z) : bool :=
  LocalStorage.exists_ st fs prefix oid
  && match LocalStorage.get_size st fs prefix oid with
     | Ok stored => stored =? size
     | Raise _ => false
     end.

(** A path component that [os.path.join] takes as absolute. *)
Definition absolute (s : string) : bool := PyStr.startswith s PosixPath.sep.

(** [s], followed by a separator unless [s] is empty or ends with one. *)
Definition with_sep (s : string) : string :=
  if PyStr.is_empty s || PyStr.endswith s PosixPath.sep then s
  else s ++ PosixPath.sep.

(** A configured prefix without its leading separator, if it has one; no
    prefix counts as the empty one. *)
Definition strip_leading_sep (prefix : option string) : string :=
  match prefix with
  | None => EmptyString
  | Some p => if PyStr.startswith p PosixPath.sep then PyStr.tail p else p
  end.

(** The layout as the specification words it: the stripped prefix, the
    namespace and the oid, one separator between them. *)
Definition layout_as_specified (prefix : option string) (namespace oid : string)
  : string :=
  strip_leading_sep prefix ++ PosixPath.sep ++ namespace ++ PosixPath.sep ++ oid.

(** The bytes the local store holds for a key, if any. *)
Definition stored_bytes (st : LocalStorage.t) (fs : FS.t) (prefix oid : string)
  : option (list Byte.byte) :=
  match FS.stat fs (LocalStorage._get_path st prefix oid) with
  | Some (FS.File c) => Some c
  | _ => None
  end.

(** The last character of [String a s]. *)
Fixpoint last_or (a : ascii) (s : string) : ascii :=
  match s with
  | EmptyString => a
  | String b t => last_or b t
  end.

(** [c not in s] *)
Fixpoint lacks (c : ascii) (s : string) : bool :=
  match s with
  | EmptyString => true
  | String a t => negb (Ascii.eqb a c) && lacks c t
  end.

(** Every directory of [m] is a directory of [m']. *)
Definition keeps_dirs (m m' : gmap (list string) FS.node) : Prop :=
  ∀ k, FS.node_at m k = Some FS.Dir → FS.node_at m' k = Some FS.Dir.

(** [fs'] is [fs] with directories added where there was nothing. *)
Definition extends (fs fs' : FS.t) : Prop :=
  FS.cwd fs' = FS.cwd fs
  ∧ FS.dir_size fs' = FS.dir_size fs
  ∧ ∀ k, FS.nodes fs' !! k = FS.nodes fs !! k
         ∨ (FS.nodes fs !! k = None ∧ FS.nodes fs' !! k = Some FS.Dir).

(** ** Sample data *)

Module Sample.

Definition url_for (endpoint : string) (values : pydict) : string :=
  "https://lfs.example/" ++ endpoint.

Definition local : LocalStorage.t := {| LocalStorage.path := "lfs-storage" |}.

Definition adapter : BasicStreamedTransferAdapter.t :=
  {| BasicStreamedTransferAdapter.storage := local;
     BasicStreamedTransferAdapter.action_lifetime := 900 |}.

Definition three_bytes : list Byte.byte := [Byte.x61; Byte.x62; Byte.x63].

Definition five_bytes : list Byte.byte :=
  [Byte.x68; Byte.x65; Byte.x6c; Byte.x6c; Byte.x6f].

(** Only the root directory. *)
Definition empty_fs : FS.t :=
  {| FS.cwd := []; FS.dir_size := 4096; FS.nodes := ∅ |}.

(** [lfs-storage/org/repo/abc] holds three bytes. *)
Definition fs : FS.t :=
  {| FS.cwd := [];
     FS.dir_size := 4096;
     FS.nodes :=
       <[ ["lfs-storage"; "org"; "repo"; "abc"] := FS.File three_bytes ]>
       (<[ ["lfs-storage"; "org"; "repo"] := FS.Dir ]>
        (<[ ["lfs-storage"; "org"] := FS.Dir ]>
         (<[ ["lfs-storage"] := FS.Dir ]> ∅))) |}.

Definition cloud : GoogleCloudBlobStorage.t :=
  {| GoogleCloudBlobStorage.bucket_name := "lfs";
     GoogleCloudBlobStorage.path_prefix := Some "/p" |}.

(** The bucket [lfs] exists and holds [p/org/repo/abc]. *)
Definition service : Gcs.t :=
  {| Gcs.buckets := {[ "lfs" := {[ "p/org/repo/abc" := three_bytes ]} ]};
     Gcs.create_refusal := None;
     Gcs.create_requests := [] |}.

(** No bucket yet. *)
Definition fresh_service : Gcs.t :=
  {| Gcs.buckets := ∅; Gcs.create_refusal := None; Gcs.create_requests := [] |}.

(** The service turns down the creation of buckets. *)
Definition closed_service : Gcs.t :=
  {| Gcs.buckets := ∅;
     Gcs.create_refusal := Some Forbidden;
     Gcs.create_requests := [] |}.

Definition from_service_account_json (path : string) : result unit := Ok ().

(** A signer that would put a content disposition it is given into the
    URL. *)
Definition generate_signed_url (bucket : string) (kwargs : pydict) : string :=
  "https://storage.example/" ++ bucket
  ++ match kwargs !! "content_disposition" with
     | Some (PyStr d) => "?response-content-disposition=" ++ d
     | _ => EmptyString
     end.

Definition view : ObjectsView.t := {| ObjectsView.storage := local |}.

(** A stream of five bytes of which two were read. *)
Definition advanced_stream : BinaryIO.t :=
  {| BinaryIO.data := five_bytes; BinaryIO.pos := 2 |}.

End Sample.

(** ** Paths *)

Lemma append_assoc (a b c : string) : (a ++ b) ++ c = a ++ b ++ c.
Proof.
  induction a as [|x a IH]; [reflexivity|].
  change (String x ((a ++ b) ++ c) = String x (a ++ b ++ c)). by rewrite IH.
Qed.

Lemma join_step_absolute (path b : string) :
  absolute b = true → PosixPath.join_step path b = b.
Proof. unfold absolute, PosixPath.join_step. by intros ->. Qed.

Lemma join_step_relative (path b : string) :
  absolute b = false → PosixPath.join_step path b = with_sep path ++ b.
Proof.
  unfold absolute, PosixPath.join_step, with_sep. intros ->.
  destruct (PyStr.is_empty path || PyStr.endswith path PosixPath.sep);
    [reflexivity | symmetry; apply append_assoc].
Qed.

Lemma startswith_sep_cons (c : ascii) (rest : string) :
  PyStr.startswith (String c rest) PosixPath.sep = Ascii.eqb c "/".
Proof.
  unfold PyStr.startswith, PosixPath.sep.
  change (String.prefix "/" (String c rest))
    with (if ascii_dec "/" c then String.prefix EmptyString rest else false).
  destruct (ascii_dec "/" c) as [<-|Hne].
  - by destruct rest.
  - symmetry. apply Ascii.eqb_neq. congruence.
Qed.

Lemma storage_prefix_stripped (p : option string) :
  match p with
  | None => EmptyString
  | Some EmptyString => EmptyString
  | Some (String c rest as q) => if Ascii.eqb c "/" then rest else q
  end = strip_leading_sep p.
Proof.
  destruct p as [[|c rest]|]; try reflexivity.
  unfold strip_leading_sep. by rewrite startswith_sep_cons.
Qed.

Example join_three :
  PosixPath.join "lfs-storage" ["org/repo"; "abc"] = "lfs-storage/org/repo/abc".
Proof. reflexivity. Qed.

Example join_absolute_component :
  PosixPath.join "lfs-storage" ["/etc"; "passwd"] = "/etc/passwd".
Proof. reflexivity. Qed.

Example join_trailing_sep :
  PosixPath.join "root/" ["org"; "abc"] = "root/org/abc".
Proof. reflexivity. Qed.

Example join_empty_root :
  PosixPath.join EmptyString ["org/repo"; "abc"] = "org/repo/abc".
Proof. reflexivity. Qed.

Example dirname_nested :
  PosixPath.dirname "lfs-storage/org/repo/abc" = "lfs-storage/org/repo".
Proof. reflexivity. Qed.

Example dirname_root : PosixPath.dirname "/abc" = "/".
Proof. reflexivity. Qed.

Example dirname_plain : PosixPath.dirname "abc" = EmptyString.
Proof. reflexivity. Qed.

Example blob_path_two_leading_seps :
  GoogleCloudBlobStorage._get_blob_path
    {| GoogleCloudBlobStorage.bucket_name := "lfs";
       GoogleCloudBlobStorage.path_prefix := Some "//p" |} "org/repo" "abc"
  = "/p/org/repo/abc".
Proof. reflexivity. Qed.

(** C6, as stated, fails: with prefix ["/p"] and the namespace
    ["/org/repo"], the blob path is ["/org/repo/abc"]; it does not begin with
    the stripped prefix and is not the layout of the specification. *)
Lemma blob_path_absolute_namespace :
  let self := {| GoogleCloudBlobStorage.bucket_name := "lfs";
                 GoogleCloudBlobStorage.path_prefix := Some "/p" |} in
  GoogleCloudBlobStorage._get_blob_path self "/org/repo" "abc" = "/org/repo/abc"
  ∧ PyStr.startswith (GoogleCloudBlobStorage._get_blob_path self "/org/repo" "abc")
                     (strip_leading_sep (Some "/p")) = false
  ∧ GoogleCloudBlobStorage._get_blob_path self "/org/repo" "abc"
    ≠ layout_as_specified (Some "/p") "/org/repo" "abc".
Proof.
  cbv zeta. split; [reflexivity | split; [reflexivity |]].
  intros H. vm_compute in H. discriminate H.
Qed.

(** C6, amended: when neither the namespace nor the oid begins with the
    separator, the blob path is the configured prefix without its leading
    separator, then the namespace, then the oid, a separator following each
    non-empty part that does not end with one; the local path is built the
    same way from the root as configured, which is not stripped. *)
Theorem storage_path_layout (cloud : GoogleCloudBlobStorage.t)
        (local : LocalStorage.t) (namespace oid : string) :
  absolute namespace = false →
  absolute oid = false →
  GoogleCloudBlobStorage._get_blob_path cloud namespace oid
  = with_sep (with_sep (strip_leading_sep (GoogleCloudBlobStorage.path_prefix cloud))
              ++ namespace) ++ oid
  ∧ LocalStorage._get_path local namespace oid
    = with_sep (with_sep (LocalStorage.path local) ++ namespace) ++ oid.
Proof.
  intros Hns Hoid.
  unfold GoogleCloudBlobStorage._get_blob_path, LocalStorage._get_path.
  rewrite storage_prefix_stripped. unfold PosixPath.join. simpl.
  by rewrite !(join_step_relative _ namespace Hns), !(join_step_relative _ oid Hoid).
Qed.

Lemma storage_path_layout_witness :
  GoogleCloudBlobStorage._get_blob_path
    {| GoogleCloudBlobStorage.bucket_name := "lfs";
       GoogleCloudBlobStorage.path_prefix := Some "/p" |} "org/repo" "abc"
  = "p/org/repo/abc"
  ∧ LocalStorage._get_path {| LocalStorage.path := "/p" |} "org/repo" "abc"
    = "/p/org/repo/abc".
Proof.
  exact (storage_path_layout
           {| GoogleCloudBlobStorage.bucket_name := "lfs";
              GoogleCloudBlobStorage.path_prefix := Some "/p" |}
           {| LocalStorage.path := "/p" |} "org/repo" "abc" eq_refl eq_refl).
Defined.

(** C10: a namespace or an oid that begins with the separator makes
    [os.path.join] drop what precedes it, so the resolved path does not
    depend on the configured root or prefix, and there are inputs whose path
    does not lie under it. *)
Theorem absolute_component_discards_root :
  (∀ (local : LocalStorage.t) (cloud : GoogleCloudBlobStorage.t)
     (namespace oid : string),
      absolute namespace = true →
      LocalStorage._get_path local namespace oid = PosixPath.join namespace [oid]
      ∧ GoogleCloudBlobStorage._get_blob_path cloud namespace oid
        = PosixPath.join namespace [oid])
  ∧ (∀ (local : LocalStorage.t) (cloud : GoogleCloudBlobStorage.t)
       (namespace oid : string),
        absolute oid = true →
        LocalStorage._get_path local namespace oid = oid
        ∧ GoogleCloudBlobStorage._get_blob_path cloud namespace oid = oid)
  ∧ (∃ (local : LocalStorage.t) (namespace oid : string),
        PyStr.startswith (LocalStorage._get_path local namespace oid)
                         (LocalStorage.path local) = false)
  ∧ (∃ (cloud : GoogleCloudBlobStorage.t) (namespace oid : string),
        PyStr.startswith (GoogleCloudBlobStorage._get_blob_path cloud namespace oid)
                         (strip_leading_sep (GoogleCloudBlobStorage.path_prefix cloud))
        = false).
Proof.
  split; [|split; [|split]].
  - intros local cloud namespace oid Hns.
    unfold LocalStorage._get_path, GoogleCloudBlobStorage._get_blob_path,
      PosixPath.join. simpl.
    by rewrite !(join_step_absolute _ namespace Hns).
  - intros local cloud namespace oid Hoid.
    unfold LocalStorage._get_path, GoogleCloudBlobStorage._get_blob_path,
      PosixPath.join. simpl.
    by rewrite !(join_step_absolute _ oid Hoid).
  - by exists {| LocalStorage.path := "lfs-storage" |}, "/etc", "passwd".
  - by exists {| GoogleCloudBlobStorage.bucket_name := "lfs";
                 GoogleCloudBlobStorage.path_prefix := Some "/p" |}, "/etc", "passwd".
Qed.

Lemma absolute_component_discards_root_witness :
  LocalStorage._get_path {| LocalStorage.path := "lfs-storage" |} "/etc" "passwd"
  = "/etc/passwd"
  ∧ GoogleCloudBlobStorage._get_blob_path
      {| GoogleCloudBlobStorage.bucket_name := "lfs";
         GoogleCloudBlobStorage.path_prefix := Some "/p" |} "/etc" "passwd"
    = "/etc/passwd".
Proof.
  exact (proj1 absolute_component_discards_root
           {| LocalStorage.path := "lfs-storage" |}
           {| GoogleCloudBlobStorage.bucket_name := "lfs";
              GoogleCloudBlobStorage.path_prefix := Some "/p" |}
           "/etc" "passwd" eq_refl).
Defined.

(** ** The local store seen by the adapter *)

Lemma local_get_size_stat (st : LocalStorage.t) (fs : FS.t) (prefix oid : string) :
  LocalStorage.get_size st fs prefix oid
  = match FS.stat fs (LocalStorage._get_path st prefix oid) with
    | Some (FS.File c) => Ok (Z.of_nat (length c))
    | _ => Ok 0
    end.
Proof.
  unfold LocalStorage.get_size, LocalStorage.exists_, FS.isfile, FS.getsize,
    FS.stat.
  by destruct (FS.stat_r fs _) as [[c|]|e].
Qed.

Lemma local_get_size_total (st : LocalStorage.t) (fs : FS.t) (prefix oid : string) :
  ∃ stored, LocalStorage.get_size st fs prefix oid = Ok stored.
Proof.
  rewrite local_get_size_stat. destruct (FS.stat fs _) as [[c|]|]; eauto.
Qed.

(** ** The streamed transfer adapter *)

Section Adapter.

Variable url_for : string → pydict → string.
Variable self : BasicStreamedTransferAdapter.t.
Variable fs : FS.t.
Variables organization repo oid : string.
Variable size : Z.

Let st := BasicStreamedTransferAdapter.storage self.
Let prefix := PosixPath.join organization [repo].

(** C1: [download] answers 404 when the store does not have the object,
    422 when it has it with another size, and otherwise a single
    [download] action with [authenticated] set; the existence test comes
    first, and an action is only issued for an object that exists with
    the declared size. *)
Theorem download_outcomes :
  ∃ r, BasicStreamedTransferAdapter.download url_for self fs organization repo oid size
       = Ok r
    ∧ (LocalStorage.exists_ st fs prefix oid = false →
       r !! "error" = Some (error_body 404 "Object does not exist")
       ∧ r !! "actions" = None)
    ∧ (∀ stored, LocalStorage.exists_ st fs prefix oid = true →
                 LocalStorage.get_size st fs prefix oid = Ok stored →
                 stored ≠ size →
       r !! "error" = Some (error_body 422 "Object size does not match")
       ∧ r !! "actions" = None)
    ∧ (LocalStorage.exists_ st fs prefix oid = true →
       LocalStorage.get_size st fs prefix oid = Ok size →
       r !! "error" = None
       ∧ r !! "authenticated" = Some (PyBool true)
       ∧ ∃ a, r !! "actions" = Some (PyDict {[ "download" := a ]}))
    ∧ (is_Some (r !! "actions") →
       LocalStorage.exists_ st fs prefix oid = true
       ∧ LocalStorage.get_size st fs prefix oid = Ok size).
Proof.
  unfold BasicStreamedTransferAdapter.download. fold st prefix.
  destruct (local_get_size_total st fs prefix oid) as [stored Hsize].
  rewrite Hsize.
  destruct (LocalStorage.exists_ st fs prefix oid) eqn:Hex; simpl.
  - destruct (Z.eqb_spec stored size) as [->|Hne]; simpl.
    + eexists; split; [reflexivity|].
      split; [done|].
      split; [intros s' _ [= <-] Hs'; by destruct Hs'|].
      split; [|done].
      intros _ _. split; [done|]. split; [done|].
      eexists. by rewrite insert_empty.
    + eexists; split; [reflexivity|].
      split; [done|].
      split; [done|].
      split; [intros _ [= E]; by destruct Hne|].
      intros [a Ha]. discriminate Ha.
  - eexists; split; [reflexivity|].
    split; [done|].
    split; [done|].
    split; [done|].
    intros [a Ha]. discriminate Ha.
Qed.

(** C2: [upload] never reports an error; it leaves [actions] out when the
    object is stored with the declared size, and otherwise offers exactly
    the actions [upload] and [verify]. *)
Theorem upload_outcomes :
  ∃ r, BasicStreamedTransferAdapter.upload url_for self fs organization repo oid size
       = Ok r
    ∧ r !! "error" = None
    ∧ if already_stored st fs prefix oid size
      then r !! "actions" = None
      else ∃ acts, r !! "actions" = Some (PyDict acts)
                   ∧ dom acts = {[ "upload"; "verify" ]}.
Proof.
  unfold BasicStreamedTransferAdapter.upload, already_stored. fold st prefix.
  destruct (local_get_size_total st fs prefix oid) as [stored Hsize].
  rewrite Hsize.
  destruct (LocalStorage.exists_ st fs prefix oid); simpl.
  - destruct (stored =? size); simpl.
    + eexists; split; [reflexivity|]. by split.
    + eexists; split; [reflexivity|]. split; [done|].
      eexists; split; [reflexivity|]. by rewrite !dom_insert_L, dom_empty_L.
  - eexists; split; [reflexivity|]. split; [done|].
    eexists; split; [reflexivity|]. by rewrite !dom_insert_L, dom_empty_L.
Qed.

(** C3, amended: a [download] response has exactly one of [actions] and
    [error]; an [upload] response never has [error], and has [actions]
    unless the object is stored with the declared size. *)
Theorem actions_error_presence :
  (∃ r, BasicStreamedTransferAdapter.download url_for self fs organization repo
          oid size = Ok r
      ∧ xorb (has_key r "actions") (has_key r "error") = true)
  ∧ (∃ r, BasicStreamedTransferAdapter.upload url_for self fs organization repo
            oid size = Ok r
        ∧ has_key r "error" = false
        ∧ has_key r "actions" = negb (already_stored st fs prefix oid size)).
Proof.
  split.
  - unfold BasicStreamedTransferAdapter.download. fold st prefix.
    destruct (local_get_size_total st fs prefix oid) as [stored Hsize].
    rewrite Hsize.
    destruct (LocalStorage.exists_ st fs prefix oid); simpl;
      [destruct (stored =? size); simpl|]; by eexists.
  - unfold BasicStreamedTransferAdapter.upload, already_stored. fold st prefix.
    destruct (local_get_size_total st fs prefix oid) as [stored Hsize].
    rewrite Hsize.
    destruct (LocalStorage.exists_ st fs prefix oid); simpl;
      [destruct (stored =? size); simpl|]; by eexists.
Qed.

End Adapter.

Lemma download_outcomes_witness :
  (∃ r, BasicStreamedTransferAdapter.download Sample.url_for Sample.adapter Sample.fs
          "org" "repo" "missing" 3 = Ok r
      ∧ r !! "error" = Some (error_body 404 "Object does not exist"))
  ∧ (∃ r, BasicStreamedTransferAdapter.download Sample.url_for Sample.adapter
            Sample.fs "org" "repo" "abc" 7 = Ok r
        ∧ r !! "error" = Some (error_body 422 "Object size does not match"))
  ∧ (∃ r, BasicStreamedTransferAdapter.download Sample.url_for Sample.adapter
            Sample.fs "org" "repo" "abc" 3 = Ok r
        ∧ r !! "error" = None
        ∧ r !! "authenticated" = Some (PyBool true)).
Proof.
  split; [|split].
  - destruct (download_outcomes Sample.url_for Sample.adapter Sample.fs
                "org" "repo" "missing" 3) as (r & Hr & Hmissing & _).
    exists r. split; [exact Hr|].
    exact (proj1 (Hmissing ltac:(vm_compute; reflexivity))).
  - destruct (download_outcomes Sample.url_for Sample.adapter Sample.fs
                "org" "repo" "abc" 7) as (r & Hr & _ & Hsize & _).
    exists r. split; [exact Hr|].
    refine (proj1 (Hsize 3 ltac:(vm_compute; reflexivity)
                         ltac:(vm_compute; reflexivity) _)).
    discriminate.
  - destruct (download_outcomes Sample.url_for Sample.adapter Sample.fs
                "org" "repo" "abc" 3) as (r & Hr & _ & _ & Hok & _).
    exists r. split; [exact Hr|].
    destruct (Hok ltac:(vm_compute; reflexivity) ltac:(vm_compute; reflexivity))
      as (He & Ha & _).
    exact (conj He Ha).
Defined.

(** C3, as stated, fails: the answer to an [upload] of an object that is
    stored with the declared size has neither [actions] nor [error]. *)
Lemma upload_of_stored_object_has_neither :
  ∃ r, BasicStreamedTransferAdapter.upload Sample.url_for Sample.adapter Sample.fs
         "org" "repo" "abc" 3 = Ok r
     ∧ has_key r "actions" = false
     ∧ has_key r "error" = false
     ∧ xorb (has_key r "actions") (has_key r "error") = false.
Proof.
  eexists. split; [vm_compute; reflexivity|]. by vm_compute.
Qed.

Example upload_of_missing_object :
  ∃ r, BasicStreamedTransferAdapter.upload Sample.url_for Sample.adapter Sample.fs
         "org" "repo" "missing" 3 = Ok r
     ∧ lookup_path ["actions"; "upload"; "href"] (PyDict r)
       = Some (PyStr "https://lfs.example/ObjectsView:put")
     ∧ lookup_path ["actions"; "verify"; "expires_in"] (PyDict r)
       = Some (PyInt 900).
Proof.
  eexists. split; [vm_compute; reflexivity|]. by vm_compute.
Qed.

(** ** Sizes of missing and stored objects *)

(** C5, as stated, fails: in a service without the configured bucket the
    object is absent, and the cloud [get_size] raises the client's
    not-found error, not [ObjectNotFound]. *)
Lemma cloud_get_size_without_bucket :
  GoogleCloudBlobStorage.exists_ Sample.cloud Sample.fresh_service "org/repo" "abc"
  = false
  ∧ GoogleCloudBlobStorage.get_size Sample.cloud Sample.fresh_service
      "org/repo" "abc" = Raise (GoogleCloudError GcsNotFound)
  ∧ GoogleCloudBlobStorage.get_size Sample.cloud Sample.fresh_service
      "org/repo" "abc" ≠ Raise (ObjectNotFound "Object does not exist").
Proof. split; [reflexivity | split; [reflexivity | discriminate]]. Qed.

(** C5, amended: for a missing object the cloud store raises
    [ObjectNotFound] with the message ["Object does not exist"] when the
    configured bucket is there, and the client's not-found error when the
    bucket is not; the local store returns 0.  For a stored object both
    return the number of its bytes. *)
Theorem get_size_missing_and_stored (cloud : GoogleCloudBlobStorage.t)
        (svc : Gcs.t) (local : LocalStorage.t) (fs : FS.t) (prefix oid : string) :
  (GoogleCloudBlobStorage.exists_ cloud svc prefix oid = false →
   is_Some (Gcs.buckets svc !! GoogleCloudBlobStorage.bucket_name cloud) →
   GoogleCloudBlobStorage.get_size cloud svc prefix oid
   = Raise (ObjectNotFound "Object does not exist"))
  ∧ (Gcs.buckets svc !! GoogleCloudBlobStorage.bucket_name cloud = None →
     GoogleCloudBlobStorage.exists_ cloud svc prefix oid = false
     ∧ GoogleCloudBlobStorage.get_size cloud svc prefix oid
       = Raise (GoogleCloudError GcsNotFound))
  ∧ (LocalStorage.exists_ local fs prefix oid = false →
     LocalStorage.get_size local fs prefix oid = Ok 0)
  ∧ (∀ b content,
        Gcs.buckets svc !! GoogleCloudBlobStorage.bucket_name cloud = Some b →
        b !! GoogleCloudBlobStorage._get_blob_path cloud prefix oid = Some content →
        GoogleCloudBlobStorage.exists_ cloud svc prefix oid = true
        ∧ GoogleCloudBlobStorage.get_size cloud svc prefix oid
          = Ok (Z.of_nat (length content)))
  ∧ (∀ content,
        FS.stat fs (LocalStorage._get_path local prefix oid) = Some (FS.File content) →
        LocalStorage.exists_ local fs prefix oid = true
        ∧ LocalStorage.get_size local fs prefix oid = Ok (Z.of_nat (length content))).
Proof.
  split; [|split; [|split; [|split]]].
  - unfold GoogleCloudBlobStorage.exists_, GoogleCloudBlobStorage.get_size,
      Gcs.get_bucket, Gcs.blob_exists.
    intros Hex [b Hb]. rewrite Hb in *. simpl. by rewrite Hex.
  - unfold GoogleCloudBlobStorage.exists_, GoogleCloudBlobStorage.get_size,
      Gcs.get_bucket, Gcs.blob_exists.
    by intros ->.
  - unfold LocalStorage.get_size. by intros ->.
  - intros b content Hb Hblob.
    unfold GoogleCloudBlobStorage.exists_, GoogleCloudBlobStorage.get_size,
      Gcs.get_bucket, Gcs.blob_exists, Gcs.get_blob.
    rewrite Hb. simpl. by rewrite Hblob.
  - intros content Hstat.
    rewrite local_get_size_stat.
    unfold LocalStorage.exists_, FS.isfile. by rewrite Hstat.
Qed.

Lemma get_size_missing_and_stored_witness :
  GoogleCloudBlobStorage.get_size Sample.cloud Sample.service "org/repo" "missing"
  = Raise (ObjectNotFound "Object does not exist")
  ∧ GoogleCloudBlobStorage.get_size Sample.cloud Sample.fresh_service
      "org/repo" "missing" = Raise (GoogleCloudError GcsNotFound)
  ∧ LocalStorage.get_size Sample.local Sample.fs "org/repo" "missing" = Ok 0
  ∧ GoogleCloudBlobStorage.get_size Sample.cloud Sample.service "org/repo" "abc" = Ok 3
  ∧ LocalStorage.get_size Sample.local Sample.fs "org/repo" "abc" = Ok 3.
Proof.
  split; [|split; [|split; [|split]]].
  - refine (proj1 (get_size_missing_and_stored Sample.cloud Sample.service
                     Sample.local Sample.fs "org/repo" "missing")
                  ltac:(vm_compute; reflexivity) _).
    eexists. vm_compute. reflexivity.
  - exact (proj2 (proj1 (proj2 (get_size_missing_and_stored Sample.cloud
                                  Sample.fresh_service Sample.local Sample.fs
                                  "org/repo" "missing"))
                        ltac:(vm_compute; reflexivity))).
  - exact (proj1 (proj2 (proj2 (get_size_missing_and_stored Sample.cloud
                                  Sample.service Sample.local Sample.fs
                                  "org/repo" "missing")))
                 ltac:(vm_compute; reflexivity)).
  - exact (proj2 (proj1 (proj2 (proj2 (proj2 (get_size_missing_and_stored
                                                Sample.cloud Sample.service
                                                Sample.local Sample.fs
                                                "org/repo" "abc"))))
                        _ Sample.three_bytes ltac:(vm_compute; reflexivity)
                        ltac:(vm_compute; reflexivity))).
  - exact (proj2 (proj2 (proj2 (proj2 (proj2 (get_size_missing_and_stored
                                                Sample.cloud Sample.service
                                                Sample.local Sample.fs
                                                "org/repo" "abc"))))
                        Sample.three_bytes ltac:(vm_compute; reflexivity))).
Defined.

(** ** Signed URLs and action descriptors of the cloud store *)

Section SignedUrls.

Variable now : Z.
Variable generate_signed_url : string → pydict → string.
Variable self : GoogleCloudBlobStorage.t.
Variables prefix oid : string.
Variables size expires_in : Z.

(** The keyword arguments with which the signer is called. *)
Lemma signed_url_call (filename : option string) :
  GoogleCloudBlobStorage._get_signed_url now generate_signed_url self prefix oid
    expires_in filename
  = generate_signed_url (GoogleCloudBlobStorage.bucket_name self)
      (<["expiration" := PyInt (now + expires_in)]>
       (<["version" := PyStr "v4"]> ∅)).
Proof. reflexivity. Qed.

(** C4 does not hold of the code: the URL made for a file name is the URL
    made for none, whatever the signer; a signer that puts the content
    disposition it receives into the URL produces a URL without one. *)
Theorem signed_url_ignores_filename :
  (∀ filename : string,
      GoogleCloudBlobStorage._get_signed_url now generate_signed_url self prefix
        oid expires_in (Some filename)
      = GoogleCloudBlobStorage._get_signed_url now generate_signed_url self prefix
          oid expires_in None)
  ∧ (∀ extra : option (gmap string string),
        GoogleCloudBlobStorage.get_download_action now generate_signed_url self
          prefix oid size expires_in extra
        = GoogleCloudBlobStorage.get_download_action now generate_signed_url self
            prefix oid size expires_in None)
  ∧ GoogleCloudBlobStorage._get_signed_url 0 Sample.generate_signed_url
      Sample.cloud "org/repo" "abc" 900 (Some "report.pdf")
    = "https://storage.example/lfs".
Proof.
  split; [|split].
  - intros filename. by rewrite !signed_url_call.
  - intros extra. unfold GoogleCloudBlobStorage.get_download_action.
    by rewrite !signed_url_call.
  - reflexivity.
Qed.


End SignedUrls.

Example download_action_of_an_hour :
  lookup_path ["actions"; "download"; "expires_in"]
    (PyDict (GoogleCloudBlobStorage.get_download_action 0 Sample.generate_signed_url
               Sample.cloud "org/repo" "abc" 3 3600 None))
  = Some (PyInt 900).
Proof. reflexivity. Qed.

(** ** Construction of the cloud store *)

Lemma create_bucket_requests (name : string) (svc : Gcs.t) :
  Gcs.create_requests (Gcs.create_bucket name svc).2
  = (Gcs.create_requests svc ++ [name])%list.
Proof.
  unfold Gcs.create_bucket.
  destruct (Gcs.create_refusal svc); [reflexivity|].
  by destruct (Gcs.buckets svc !! name).
Qed.

Lemma init_container_requests (self : GoogleCloudBlobStorage.t) (svc : Gcs.t) :
  Gcs.create_requests (GoogleCloudBlobStorage._init_container self svc).2
  = (Gcs.create_requests svc ++ [GoogleCloudBlobStorage.bucket_name self])%list.
Proof.
  unfold GoogleCloudBlobStorage._init_container.
  rewrite <- create_bucket_requests.
  destruct (Gcs.create_bucket _ svc) as [[[]|[| | | | | | | | |[]]] svc']; reflexivity.
Qed.

Lemma init_container_bucket (self : GoogleCloudBlobStorage.t) (svc : Gcs.t) :
  Gcs.create_refusal svc = None →
  (GoogleCloudBlobStorage._init_container self svc).1 = Ok ()
  ∧ is_Some (Gcs.buckets (GoogleCloudBlobStorage._init_container self svc).2
             !! GoogleCloudBlobStorage.bucket_name self).
Proof.
  intros Hfree. unfold GoogleCloudBlobStorage._init_container, Gcs.create_bucket.
  rewrite Hfree.
  destruct (Gcs.buckets svc !! _) as [b|] eqn:Hb; simpl.
  - by rewrite Hb.
  - by rewrite lookup_insert_eq.
Qed.

(** C8: the constructor asks for the bucket to be created once; when that
    request fails with [Conflict] the constructor returns the store, and the
    bucket is there when the conflict is with a bucket of the same project;
    any other failure of the request is raised by the constructor. *)
Theorem init_creates_bucket_once
        (from_service_account_json : string → result unit)
        (bucket_name account_json_path : string) (path_prefix : option string)
        (svc : Gcs.t) :
  from_service_account_json account_json_path = Ok () →
  ∃ r svc',
    GoogleCloudBlobStorage.__init__ from_service_account_json bucket_name
      account_json_path path_prefix svc = (r, svc')
    ∧ Gcs.create_requests svc' = (Gcs.create_requests svc ++ [bucket_name])%list
    ∧ match (Gcs.create_bucket bucket_name svc).1 with
      | Ok _ | Raise (GoogleCloudError Conflict) =>
          r = Ok {| GoogleCloudBlobStorage.bucket_name := bucket_name;
                    GoogleCloudBlobStorage.path_prefix := path_prefix |}
      | Raise e => r = Raise e
      end
    ∧ (Gcs.create_refusal svc = None →
       is_Some (Gcs.buckets svc' !! bucket_name)).
Proof.
  intros Hclient. unfold GoogleCloudBlobStorage.__init__. rewrite Hclient.
  set (self := {| GoogleCloudBlobStorage.bucket_name := bucket_name;
                  GoogleCloudBlobStorage.path_prefix := path_prefix |}).
  pose proof (init_container_requests self svc) as Hreq.
  pose proof (init_container_bucket self svc) as Hbucket.
  unfold GoogleCloudBlobStorage._init_container in *. simpl in *.
  destruct (Gcs.create_bucket bucket_name svc) as [[[]|[| | | | | | | | |[]]] svc'];
    simpl in *; do 2 eexists; (split; [reflexivity|]);
    (split; [exact Hreq|]); (split; [reflexivity|]);
    intros Hfree; exact (proj2 (Hbucket Hfree)).
Qed.

Lemma init_creates_bucket_once_witness :
  (∃ svc', GoogleCloudBlobStorage.__init__ Sample.from_service_account_json
             "lfs" "account.json" (Some "/p") Sample.service
           = (Ok Sample.cloud, svc')
         ∧ Gcs.create_requests svc' = ["lfs"])
  ∧ (∃ svc', GoogleCloudBlobStorage.__init__ Sample.from_service_account_json
               "lfs" "account.json" (Some "/p") Sample.closed_service
             = (Raise (GoogleCloudError Forbidden), svc')
           ∧ Gcs.create_requests svc' = ["lfs"]).
Proof.
  split.
  - destruct (init_creates_bucket_once Sample.from_service_account_json
                "lfs" "account.json" (Some "/p") Sample.service eq_refl)
      as (r & svc' & Hinit & Hreq & Hr & _).
    exists svc'. vm_compute in Hr. rewrite Hr in Hinit. exact (conj Hinit Hreq).
  - destruct (init_creates_bucket_once Sample.from_service_account_json
                "lfs" "account.json" (Some "/p") Sample.closed_service eq_refl)
      as (r & svc' & Hinit & Hreq & Hr & _).
    exists svc'. vm_compute in Hr. rewrite Hr in Hinit. exact (conj Hinit Hreq).
Defined.

Example init_on_fresh_service :
  ∃ svc', GoogleCloudBlobStorage.__init__ Sample.from_service_account_json
            "lfs" "account.json" None Sample.fresh_service
          = (Ok {| GoogleCloudBlobStorage.bucket_name := "lfs";
                   GoogleCloudBlobStorage.path_prefix := None |}, svc')
        ∧ Gcs.buckets svc' !! "lfs" = Some ∅.
Proof. eexists. split; [vm_compute; reflexivity | reflexivity]. Qed.

(** ** More on strings and paths *)

Lemma append_empty_r (s : string) : s ++ EmptyString = s.
Proof.
  induction s as [|a s IH]; [reflexivity|].
  change (String a (s ++ EmptyString) = String a s). by rewrite IH.
Qed.

Lemma rev_app_head (s : string) :
  ∀ (a : ascii) (acc : string),
    ∃ t, String.rev_app (String a s) acc = String (last_or a s) t.
Proof.
  induction s as [|b s IH]; intros a acc.
  - by exists acc.
  - destruct (IH b (String a acc)) as [t Ht]. exists t. exact Ht.
Qed.

Lemma endswith_sep_cons (a : ascii) (s : string) :
  PyStr.endswith (String a s) PosixPath.sep = Ascii.eqb (last_or a s) "/".
Proof.
  destruct (rev_app_head s a EmptyString) as [t Ht].
  change (PyStr.endswith (String a s) PosixPath.sep)
    with (PyStr.startswith (String.rev_app (String a s) EmptyString) PosixPath.sep).
  rewrite Ht. apply startswith_sep_cons.
Qed.

Lemma last_or_snoc (s : string) :
  ∀ a c, last_or a (s ++ String c EmptyString) = c.
Proof.
  induction s as [|b s IH]; intros a c; [reflexivity|].
  change (last_or b (s ++ String c EmptyString) = c). apply IH.
Qed.

Lemma endswith_sep_snoc (s : string) :
  PyStr.endswith (s ++ PosixPath.sep) PosixPath.sep = true.
Proof.
  destruct s as [|a s]; [reflexivity|].
  change (String a s ++ PosixPath.sep) with (String a (s ++ PosixPath.sep)).
  rewrite endswith_sep_cons. unfold PosixPath.sep. by rewrite last_or_snoc.
Qed.

(** What [with_sep] returns is empty or ends with the separator. *)
Lemma with_sep_closed (s : string) :
  PyStr.is_empty (with_sep s) = true
  ∨ PyStr.endswith (with_sep s) PosixPath.sep = true.
Proof.
  unfold with_sep.
  destruct (PyStr.is_empty s) eqn:He; simpl; [by left|].
  destruct (PyStr.endswith s PosixPath.sep) eqn:Hs; right;
    [exact Hs | apply endswith_sep_snoc].
Qed.

Lemma with_sep_open (s : string) :
  PyStr.is_empty s = false →
  PyStr.endswith s PosixPath.sep = false →
  with_sep s = s ++ PosixPath.sep.
Proof. unfold with_sep. by intros -> ->. Qed.

Lemma upto_last_snoc (c : ascii) (d t : string) :
  lacks c t = true →
  PyStr.upto_last c (d ++ String c t) = Some (d ++ String c EmptyString).
Proof.
  intros Ht.
  assert (Hnone : PyStr.upto_last c t = None).
  { induction t as [|a t IH]; [reflexivity|].
    simpl in Ht. apply andb_true_iff in Ht as [Ha Ht].
    simpl. rewrite (IH Ht). by destruct (Ascii.eqb a c). }
  induction d as [|a d IH].
  - change (PyStr.upto_last c (String c t) = Some (String c EmptyString)).
    simpl. by rewrite Hnone, Ascii.eqb_refl.
  - change (PyStr.upto_last c (String a (d ++ String c t))
            = Some (String a (d ++ String c EmptyString))).
    simpl. by rewrite IH.
Qed.

Lemma all_char_sep_last (a : ascii) (s : string) :
  PyStr.all_char "/" (String a s) = true → last_or a s = "/"%char.
Proof.
  revert a. induction s as [|b s IH]; intros a H; simpl in H.
  - apply andb_true_iff in H as [H _]. by apply Ascii.eqb_eq.
  - apply andb_true_iff in H as [_ H]. exact (IH b H).
Qed.

Lemma rstrip_sep_snoc (s : string) :
  PyStr.is_empty s = false →
  PyStr.endswith s PosixPath.sep = false →
  PyStr.rstrip "/" (s ++ PosixPath.sep) = s
  ∧ PyStr.all_char "/" (s ++ PosixPath.sep) = false.
Proof.
  destruct s as [|a s]; [discriminate|]. intros _.
  rewrite endswith_sep_cons. revert a.
  induction s as [|b s IH]; intros a Hlast.
  - simpl in Hlast. unfold PosixPath.sep.
    change (String a EmptyString ++ "/") with (String a "/").
    simpl. rewrite Hlast. by simpl.
  - change (String a (String b s) ++ PosixPath.sep)
      with (String a (String b s ++ PosixPath.sep)).
    destruct (IH b Hlast) as [Hstrip Hall].
    split.
    + change (PyStr.rstrip "/" (String a (String b s ++ PosixPath.sep)))
        with (let r := PyStr.rstrip "/" (String b s ++ PosixPath.sep) in
              if PyStr.is_empty r && Ascii.eqb a "/" then EmptyString
              else String a r).
      by rewrite Hstrip.
    + change (PyStr.all_char "/" (String a (String b s ++ PosixPath.sep)))
        with (Ascii.eqb a "/" && PyStr.all_char "/" (String b s ++ PosixPath.sep)).
      rewrite Hall. apply andb_false_r.
Qed.

(** The directory part of a path that ends with a name after a separator. *)
Lemma dirname_of_child (d name : string) :
  PyStr.is_empty d = false →
  PyStr.endswith d PosixPath.sep = false →
  lacks "/" name = true →
  PosixPath.dirname (d ++ PosixPath.sep ++ name) = d.
Proof.
  intros Hd Hend Hname. unfold PosixPath.dirname, PosixPath.sep.
  change ("/" ++ name) with (String "/" name).
  rewrite (upto_last_snoc "/" d name Hname). simpl default.
  destruct (rstrip_sep_snoc d Hd Hend) as [Hstrip Hall].
  unfold PosixPath.sep in Hstrip, Hall. rewrite Hall, Hstrip.
  destruct d; [discriminate | reflexivity].
Qed.


(** ** Heads and tails of paths *)

Lemma split_lacks (c : ascii) (t : string) :
  lacks c t = true → PyStr.split c t = [t].
Proof.
  induction t as [|a t IH]; [reflexivity|]. simpl. intros H.
  apply andb_true_iff in H as [Ha Ht]. apply negb_true_iff in Ha.
  by rewrite Ha, (IH Ht).
Qed.

Lemma split_not_nil (c : ascii) (s : string) : PyStr.split c s ≠ [].
Proof.
  induction s as [|a s IH]; [done|]. simpl.
  destruct (Ascii.eqb a c); [done|]. by destruct (PyStr.split c s).
Qed.

Lemma split_snoc (c : ascii) (d t : string) :
  lacks c t = true →
  PyStr.split c (d ++ String c t) = (PyStr.split c d ++ [t])%list.
Proof.
  intros Ht. induction d as [|a d IH].
  - change (EmptyString ++ String c t) with (String c t). simpl.
    by rewrite Ascii.eqb_refl, (split_lacks c t Ht).
  - change (String a d ++ String c t) with (String a (d ++ String c t)).
    simpl. rewrite IH.
    destruct (Ascii.eqb a c); [reflexivity|].
    pose proof (split_not_nil c d) as Hne.
    by destruct (PyStr.split c d).
Qed.

Lemma upto_last_none (c : ascii) (s : string) :
  PyStr.upto_last c s = None → lacks c s = true ∧ PyStr.after_last c s = s.
Proof.
  induction s as [|a s IH]; [done|]. simpl.
  destruct (PyStr.upto_last c s) as [h|]; [discriminate|].
  destruct (Ascii.eqb a c); [discriminate|]. intros _.
  by destruct (IH eq_refl) as [-> _].
Qed.

Lemma upto_last_some (c : ascii) (s h : string) :
  PyStr.upto_last c s = Some h →
  ∃ h0, h = h0 ++ String c EmptyString
        ∧ s = h0 ++ String c (PyStr.after_last c s)
        ∧ lacks c (PyStr.after_last c s) = true.
Proof.
  revert h. induction s as [|a s IH]; intros h; [discriminate|]. simpl.
  destruct (PyStr.upto_last c s) as [h'|] eqn:Hs.
  - intros [= <-]. destruct (IH h' eq_refl) as (h0 & -> & Hdec & Hlacks).
    exists (String a h0). split; [reflexivity|]. split; [|exact Hlacks].
    change (String a h0 ++ String c (PyStr.after_last c s))
      with (String a (h0 ++ String c (PyStr.after_last c s))).
    by rewrite <- Hdec.
  - destruct (Ascii.eqb_spec a c) as [->|Hne]; [|discriminate].
    intros [= <-]. exists EmptyString.
    split; [reflexivity|]. split; [reflexivity|].
    by apply upto_last_none.
Qed.

Lemma rstrip_decompose (s : string) :
  ∃ z, PyStr.all_char "/" z = true ∧ s = PyStr.rstrip "/" s ++ z.
Proof.
  induction s as [|a s (z & Hz & Hs)]; [by exists EmptyString|]. simpl.
  destruct (PyStr.rstrip "/" s) as [|b r] eqn:Hr; simpl.
  - destruct (Ascii.eqb_spec a "/") as [->|Hne].
    + exists (String "/" z). split; [exact Hz|].
      change (EmptyString ++ z) with z in Hs. by rewrite <- Hs.
    + exists z. split; [exact Hz|].
      change (String a EmptyString ++ z) with (String a (EmptyString ++ z)).
      by rewrite <- Hs.
  - exists z. split; [exact Hz|].
    change (String a (String b r) ++ z) with (String a (String b r ++ z)).
    by rewrite <- Hs.
Qed.

Lemma length_append (a b : string) :
  String.length (a ++ b) = (String.length a + String.length b)%nat.
Proof.
  induction a as [|x a IH]; [reflexivity|].
  change (String.length (String x (a ++ b))
          = S (String.length a + String.length b)).
  simpl. by rewrite IH.
Qed.

Lemma startswith_append (a b : string) :
  PyStr.is_empty a = false →
  PyStr.startswith (a ++ b) PosixPath.sep = PyStr.startswith a PosixPath.sep.
Proof.
  destruct a as [|x a]; [discriminate|]. intros _.
  change (String x a ++ b) with (String x (a ++ b)).
  by rewrite !startswith_sep_cons.
Qed.

(** ** Walks *)

Lemma bind_ok {A : Type} (r : result A) : (a ← r; Ok a) = r.
Proof. by destruct r. Qed.

Lemma walk_app (m : gmap (list string) FS.node) (cs cs' : list string) :
  ∀ q, FS.walk m (cs ++ cs')%list q = (q' ← FS.walk m cs q; FS.walk m cs' q').
Proof.
  induction cs as [|c cs IH]; intros q; [reflexivity|]. simpl.
  destruct (FS.step m q c) as [q1|e]; [apply IH | reflexivity].
Qed.

Lemma walk_single (m : gmap (list string) FS.node) (c : string) (q : list string) :
  FS.walk m [c] q = FS.step m q c.
Proof. simpl. apply bind_ok. Qed.

Lemma walk_snoc (m : gmap (list string) FS.node) (d t : string) (q : list string) :
  lacks "/" t = true →
  FS.walk m (PyStr.split "/" (d ++ String "/" t)) q
  = (q' ← FS.walk m (PyStr.split "/" d) q; FS.step m q' t).
Proof.
  intros Ht. rewrite (split_snoc "/" d t Ht), walk_app.
  destruct (FS.walk m (PyStr.split "/" d) q) as [q'|e]; [|reflexivity].
  apply walk_single.
Qed.

(** Trailing separators do not change where a walk ends. *)
Lemma walk_slashes (m : gmap (list string) FS.node) (z : string) :
  PyStr.all_char "/" z = true →
  ∀ s q, FS.walk m (PyStr.split "/" (s ++ z)) q = FS.walk m (PyStr.split "/" s) q.
Proof.
  induction z as [|a z IH]; intros Hz s q.
  - by rewrite append_empty_r.
  - simpl in Hz. apply andb_true_iff in Hz as [Ha Hz].
    apply Ascii.eqb_eq in Ha as ->.
    assert (Hs : s ++ String "/" z = (s ++ String "/" EmptyString) ++ z)
      by (by rewrite append_assoc).
    rewrite Hs, (IH Hz), (walk_snoc m s EmptyString q eq_refl).
    destruct (FS.walk m (PyStr.split "/" s) q) as [q'|e]; reflexivity.
Qed.

(** The head that [os.path.split] and [os.path.dirname] take of a path
    whose part up to the last separator is [h0 ++ "/"]. *)
Lemma head_walk (m : gmap (list string) FS.node) (h0 : string) :
  let h := h0 ++ String "/" EmptyString in
  let D := if negb (PyStr.is_empty h) && negb (PyStr.all_char "/" h)
           then PyStr.rstrip "/" h else h in
  PyStr.is_empty D = false →
  (∀ q, FS.walk m (PyStr.split "/" D) q = FS.walk m (PyStr.split "/" h0) q)
  ∧ PyStr.startswith D "/" = PyStr.startswith h "/".
Proof.
  intros h D HD.
  assert (Hh : ∀ q, FS.walk m (PyStr.split "/" h) q
                    = FS.walk m (PyStr.split "/" h0) q).
  { intros q. apply (walk_slashes m (String "/" EmptyString) eq_refl). }
  subst D. destruct (negb (PyStr.is_empty h) && negb (PyStr.all_char "/" h)).
  - destruct (rstrip_decompose h) as (z & Hz & Hdec). split.
    + intros q. rewrite <- Hh. rewrite Hdec at 2.
      symmetry. by apply walk_slashes.
    + rewrite Hdec at 2. symmetry. by apply (startswith_append _ z).
  - by split.
Qed.

(** Where a path leads is one step from where its directory leads. *)
Lemma resolve_dirname (fs : FS.t) (p : string) :
  PyStr.is_empty (PosixPath.dirname p) = false →
  FS.resolve fs p
  = (q ← FS.resolve fs (PosixPath.dirname p);
     FS.step (FS.nodes fs) q (PyStr.after_last "/" p)).
Proof.
  unfold PosixPath.dirname.
  destruct (PyStr.upto_last "/" p) as [h|] eqn:Hu; [|discriminate].
  destruct (upto_last_some "/" p h Hu) as (h0 & -> & Hp & Hl).
  simpl default. intros HD.
  destruct (head_walk (FS.nodes fs) h0 HD) as [Hwalk Hstart].
  remember (PyStr.after_last "/" p) as t eqn:Ht. clear Ht Hu. subst p.
  unfold FS.resolve. rewrite Hwalk, Hstart.
  assert (Hs : PyStr.startswith (h0 ++ String "/" t) "/"
               = PyStr.startswith (h0 ++ String "/" EmptyString) "/").
  { assert (Ha : h0 ++ String "/" t = (h0 ++ String "/" EmptyString) ++ t)
      by (by rewrite append_assoc).
    rewrite Ha. apply (startswith_append _ t). by destruct h0. }
  rewrite Hs. by apply walk_snoc.
Qed.

(** ** Trees that grow *)

Lemma step_keeps (m m' : gmap (list string) FS.node) (q : list string)
      (c : string) (q' : list string) :
  keeps_dirs m m' → FS.step m q c = Ok q' → FS.step m' q c = Ok q'.
Proof.
  intros Hk. unfold FS.step.
  destruct (String.eqb c EmptyString); [done|].
  destruct (FS.node_at m q) as [[content|]|] eqn:Hq; try discriminate.
  by rewrite (Hk q Hq).
Qed.

Lemma walk_keeps (m m' : gmap (list string) FS.node) (cs : list string) :
  keeps_dirs m m' →
  ∀ q q', FS.walk m cs q = Ok q' → FS.walk m' cs q = Ok q'.
Proof.
  intros Hk. induction cs as [|c cs IH]; intros q q'; [done|]. simpl.
  destruct (FS.step m q c) as [q1|e] eqn:Hstep; [|discriminate].
  rewrite (step_keeps m m' q c q1 Hk Hstep). apply IH.
Qed.

Lemma resolve_keeps (fs fs' : FS.t) (p : string) (q : list string) :
  FS.cwd fs' = FS.cwd fs →
  keeps_dirs (FS.nodes fs) (FS.nodes fs') →
  FS.resolve fs p = Ok q → FS.resolve fs' p = Ok q.
Proof.
  intros Hcwd Hk. unfold FS.resolve. rewrite Hcwd. by apply walk_keeps.
Qed.

Lemma extends_node (fs fs' : FS.t) (k : list string) (v : FS.node) :
  extends fs fs' →
  FS.node_at (FS.nodes fs) k = Some v → FS.node_at (FS.nodes fs') k = Some v.
Proof.
  intros (_ & _ & Hn). destruct k as [|c k]; [done|]. simpl.
  destruct (Hn (c :: k)) as [->|[-> _]]; done.
Qed.

Lemma extends_keeps (fs fs' : FS.t) :
  extends fs fs' → keeps_dirs (FS.nodes fs) (FS.nodes fs').
Proof. intros He k. by apply extends_node. Qed.

Lemma extends_refl (fs : FS.t) : extends fs fs.
Proof. repeat split. intros k. by left. Qed.

Lemma extends_trans (fs1 fs2 fs3 : FS.t) :
  extends fs1 fs2 → extends fs2 fs3 → extends fs1 fs3.
Proof.
  intros (Hc1 & Hd1 & Hn1) (Hc2 & Hd2 & Hn2).
  split; [congruence|]. split; [congruence|]. intros k.
  destruct (Hn1 k) as [H1|[H1 H1']], (Hn2 k) as [H2|[H2 H2']].
  - left. congruence.
  - right. split; congruence.
  - right. split; congruence.
  - congruence.
Qed.

Lemma insert_file_keeps (m : gmap (list string) FS.node) (q : list string)
      (c : list Byte.byte) :
  FS.node_at m q ≠ Some FS.Dir → keeps_dirs m (<[q := FS.File c]> m).
Proof.
  intros Hq [|x k] Hk; [done|]. simpl in *.
  destruct (decide (q = x :: k)) as [->|Hne]; [done|].
  by rewrite lookup_insert_ne.
Qed.

(** A file that is there still is there, with its bytes, after the tree
    has grown. *)
Lemma stat_file_extends (fs fs' : FS.t) (p : string) (c : list Byte.byte) :
  extends fs fs' →
  FS.stat fs p = Some (FS.File c) → FS.stat fs' p = Some (FS.File c).
Proof.
  intros He. pose proof He as (Hcwd & _ & _). unfold FS.stat, FS.stat_r.
  destruct (PyStr.is_empty p); [done|].
  destruct (FS.resolve fs p) as [q|e] eqn:Hq; [|done].
  rewrite (resolve_keeps fs fs' p q Hcwd (extends_keeps fs fs' He) Hq). simpl.
  destruct (FS.node_at (FS.nodes fs) q) as [[c'|]|] eqn:Hn; [|done|done].
  rewrite (extends_node fs fs' q _ He Hn).
  by destruct (PyStr.endswith p "/").
Qed.

Lemma stat_dir_extends (fs fs' : FS.t) (p : string) :
  extends fs fs' → FS.stat fs p = Some FS.Dir → FS.stat fs' p = Some FS.Dir.
Proof.
  intros He. pose proof He as (Hcwd & _ & _). unfold FS.stat, FS.stat_r.
  destruct (PyStr.is_empty p); [done|].
  destruct (FS.resolve fs p) as [q|e] eqn:Hq; [|done].
  rewrite (resolve_keeps fs fs' p q Hcwd (extends_keeps fs fs' He) Hq). simpl.
  destruct (FS.node_at (FS.nodes fs) q) as [[c'|]|] eqn:Hn.
  - by destruct (PyStr.endswith p "/").
  - by rewrite (extends_node fs fs' q _ He Hn).
  - done.
Qed.

(** ** Making directories *)

Lemma mkdir_extends (fs : FS.t) (p : string) (r : result unit) (fs' : FS.t) :
  FS.mkdir fs p = (r, fs') → extends fs fs'.
Proof.
  unfold FS.mkdir.
  destruct (PyStr.is_empty p); [intros [= _ <-]; apply extends_refl|].
  destruct (FS.resolve fs p) as [q|e]; [|intros [= _ <-]; apply extends_refl].
  destruct (FS.node_at (FS.nodes fs) q) as [n|] eqn:Hq;
    [intros [= _ <-]; apply extends_refl|].
  intros [= _ <-]. destruct q as [|c q]; [discriminate Hq|]. simpl in Hq.
  split; [reflexivity|]. split; [reflexivity|]. intros k. simpl.
  destruct (decide (c :: q = k)) as [<-|Hne].
  - right. by rewrite lookup_insert_eq.
  - left. by rewrite lookup_insert_ne.
Qed.

(** [os.makedirs], however it ends, has only added directories. *)
Lemma makedirs_go_extends (fuel : nat) :
  ∀ (fs : FS.t) (name : string) (r : result unit) (fs' : FS.t),
    FS.makedirs_go fuel fs name = (r, fs') → extends fs fs'.
Proof.
  induction fuel as [|fuel IH]; intros fs name r fs'; cbn [FS.makedirs_go].
  - intros [= _ <-]. apply extends_refl.
  - destruct (PosixPath.split name) as [h1 t1].
    destruct (if PyStr.is_empty t1 then PosixPath.split h1 else (h1, t1))
      as [head tail].
    destruct (negb (PyStr.is_empty head) && negb (PyStr.is_empty tail)
              && negb (FS.exists_ fs head)); [|apply mkdir_extends].
    destruct (FS.makedirs_go fuel fs head) as [r1 fs1] eqn:Hgo.
    pose proof (IH fs head r1 fs1 Hgo) as H1.
    assert (Hnext : (if String.eqb tail "." then (Ok (), fs1)
                     else FS.mkdir fs1 name) = (r, fs') → extends fs fs').
    { destruct (String.eqb tail ".").
      - by intros [= _ <-].
      - intros Hm. exact (extends_trans _ _ _ H1 (mkdir_extends _ _ _ _ Hm)). }
    destruct r1 as [[]|e]; [exact Hnext|].
    destruct e; try (by intros [= _ <-]); exact Hnext.
Qed.

Lemma makedirs_extends (fs fs' : FS.t) (name : string) :
  FS.makedirs fs name = Ok fs' → extends fs fs'.
Proof.
  unfold FS.makedirs.
  destruct (FS.makedirs_go _ fs name) as [[[]|e] fs1] eqn:Hgo; [|discriminate].
  intros [= <-]. exact (makedirs_go_extends _ _ _ _ _ Hgo).
Qed.

Lemma create_path_extends (fs fs' : FS.t) (p : string) :
  LocalStorage._create_path fs p = Ok fs' → extends fs fs'.
Proof.
  unfold LocalStorage._create_path.
  destruct (FS.isdir fs p); simpl.
  - intros [= <-]. apply extends_refl.
  - apply makedirs_extends.
Qed.

Lemma create_path_empty (fs : FS.t) :
  LocalStorage._create_path fs EmptyString = Raise FileNotFoundError.
Proof. reflexivity. Qed.

(** *** The depth of the recursion *)

Lemma rstrip_length (s : string) :
  (String.length (PyStr.rstrip "/" s) ≤ String.length s)%nat.
Proof.
  destruct (rstrip_decompose s) as (z & _ & Hs).
  rewrite Hs at 2. rewrite length_append. lia.
Qed.

Lemma split_lengths (p head tail : string) :
  PosixPath.split p = (head, tail) →
  (String.length head + String.length tail ≤ String.length p)%nat.
Proof.
  unfold PosixPath.split. intros [= <- <-].
  destruct (PyStr.upto_last "/" p) as [h|] eqn:Hu.
  - destruct (upto_last_some "/" p h Hu) as (h0 & -> & Hp & _).
    simpl default.
    remember (PyStr.after_last "/" p) as t eqn:Ht. clear Ht Hu. subst p.
    assert (Hlen : String.length (h0 ++ String "/" t)
                   = (String.length (h0 ++ String "/" EmptyString)
                      + String.length t)%nat).
    { rewrite !length_append. simpl. lia. }
    rewrite Hlen.
    pose proof (rstrip_length (h0 ++ String "/" EmptyString)).
    destruct (negb _ && negb _); lia.
  - destruct (upto_last_none "/" p Hu) as [_ ->]. simpl. lia.
Qed.

Lemma walk_error (m : gmap (list string) FS.node) (cs : list string) :
  ∀ q e, FS.walk m cs q = Raise e → e = NotADirectoryError ∨ e = FileNotFoundError.
Proof.
  induction cs as [|c cs IH]; intros q e; [discriminate|]. simpl.
  destruct (FS.step m q c) as [q1|e1] eqn:Hstep; simpl; [apply IH|].
  intros [= <-]. unfold FS.step in Hstep.
  destruct (String.eqb c EmptyString); [discriminate|].
  destruct (FS.node_at m q) as [[content|]|].
  - injection Hstep as <-. by left.
  - by destruct (String.eqb c "."), (String.eqb c "..").
  - injection Hstep as <-. by right.
Qed.

Lemma mkdir_no_recursion_error (fs : FS.t) (p : string) :
  (FS.mkdir fs p).1 ≠ Raise RecursionError.
Proof.
  unfold FS.mkdir. destruct (PyStr.is_empty p); [done|].
  destruct (FS.resolve fs p) as [q|e] eqn:Hq.
  - by destruct (FS.node_at (FS.nodes fs) q).
  - simpl. intros [= ->].
    by destruct (walk_error _ _ _ _ Hq).
Qed.

(** With more fuel than the path has characters, [makedirs_go] does not
    run out of it. *)
Lemma makedirs_go_fuel (fuel : nat) :
  ∀ (fs : FS.t) (name : string),
    (String.length name < fuel)%nat →
    (FS.makedirs_go fuel fs name).1 ≠ Raise RecursionError.
Proof.
  induction fuel as [|fuel IH]; intros fs name Hlen; [lia|].
  cbn [FS.makedirs_go].
  destruct (PosixPath.split name) as [h1 t1] eqn:Hs1.
  pose proof (split_lengths _ _ _ Hs1) as Hl1.
  destruct (if PyStr.is_empty t1 then PosixPath.split h1 else (h1, t1))
    as [head tail] eqn:Hs2.
  assert (Hl2 : (String.length head + String.length tail
                 ≤ String.length name)%nat).
  { destruct (PyStr.is_empty t1).
    - pose proof (split_lengths _ _ _ Hs2). lia.
    - injection Hs2 as <- <-. lia. }
  destruct (negb (PyStr.is_empty head) && negb (PyStr.is_empty tail)
            && negb (FS.exists_ fs head)) eqn:Hcond;
    [|apply mkdir_no_recursion_error].
  assert (Hhead : (String.length head < fuel)%nat).
  { destruct tail as [|a tail]; [by rewrite andb_false_r in Hcond|].
    simpl in Hl2. lia. }
  pose proof (IH fs head Hhead) as Hno.
  destruct (FS.makedirs_go fuel fs head) as [r1 fs1].
  assert (Hnext : (if String.eqb tail "." then (Ok (), fs1)
                   else FS.mkdir fs1 name).1 ≠ Raise RecursionError).
  { destruct (String.eqb tail "."); [done | apply mkdir_no_recursion_error]. }
  destruct r1 as [[]|e]; [exact Hnext|].
  destruct e; try done; exact Hnext.
Qed.

Lemma makedirs_no_recursion_error (fs : FS.t) (name : string) :
  FS.makedirs fs name ≠ Raise RecursionError.
Proof.
  unfold FS.makedirs.
  pose proof (makedirs_go_fuel (S (String.length name)) fs name ltac:(lia)) as H.
  destruct (FS.makedirs_go _ fs name) as [[[]|e] fs1]; [done|].
  simpl in H. congruence.
Qed.

(** ** Storing an object *)

Lemma read_exhausts (s : BinaryIO.t) :
  BinaryIO.remaining (BinaryIO.read s).2 = [].
Proof.
  unfold BinaryIO.read, BinaryIO.remaining. simpl. apply drop_ge. lia.
Qed.

Lemma open_w_inv (fs : FS.t) (p : string) (f : FS.wfile) (fs' : FS.t) :
  FS.open_w fs p = Ok (f, fs') →
  PyStr.is_empty p = false
  ∧ PyStr.endswith p "/" = false
  ∧ ∃ q, FS.resolve fs p = Ok q
         ∧ FS.node_at (FS.nodes fs) q ≠ Some FS.Dir
         ∧ f = {| FS.loc := q; FS.written := [] |}
         ∧ fs' = FS.with_nodes fs (<[q := FS.File []]> (FS.nodes fs)).
Proof.
  unfold FS.open_w.
  destruct (PyStr.is_empty p); [discriminate|].
  destruct (PyStr.endswith p "/"); [discriminate|].
  destruct (FS.resolve fs p) as [q|e]; [|discriminate]. simpl.
  destruct (FS.node_at (FS.nodes fs) q) as [[content|]|] eqn:Hq;
    try discriminate; intros [= <- <-];
    (split; [reflexivity|]); (split; [reflexivity|]);
    exists q; by rewrite Hq.
Qed.

(** What a [put] of the local store that returns has done. *)
Lemma local_put_inv (st : LocalStorage.t) (fs : FS.t) (prefix oid : string)
      (s : BinaryIO.t) (n : Z) (s' : BinaryIO.t) (fs' : FS.t) :
  LocalStorage.put st fs prefix oid s = Ok (n, s', fs') →
  ∃ fs1 q,
    LocalStorage._create_path fs
      (PosixPath.dirname (LocalStorage._get_path st prefix oid)) = Ok fs1
    ∧ PyStr.is_empty (LocalStorage._get_path st prefix oid) = false
    ∧ PyStr.endswith (LocalStorage._get_path st prefix oid) "/" = false
    ∧ FS.resolve fs1 (LocalStorage._get_path st prefix oid) = Ok q
    ∧ FS.node_at (FS.nodes fs1) q ≠ Some FS.Dir
    ∧ n = Z.of_nat (length (BinaryIO.remaining s))
    ∧ s' = (BinaryIO.read s).2
    ∧ fs' = FS.with_nodes fs1 (<[q := FS.File (BinaryIO.remaining s)]> (FS.nodes fs1)).
Proof.
  unfold LocalStorage.put.
  destruct (LocalStorage._create_path fs _) as [fs1|e] eqn:Hcreate; [|discriminate].
  simpl.
  destruct (FS.open_w fs1 _) as [[dest fs2]|e] eqn:Hopen; [|discriminate].
  apply open_w_inv in Hopen as (Hne & Hend & q & Hq & Hnode & -> & ->).
  simpl. intros [= <- <- <-].
  exists fs1, q. repeat (split; [done|]).
  unfold FS.with_nodes. simpl. by rewrite insert_insert_eq.
Qed.

Lemma local_put_result (st : LocalStorage.t) (fs : FS.t) (prefix oid : string)
      (s : BinaryIO.t) (n : Z) (s' : BinaryIO.t) (fs' : FS.t) :
  LocalStorage.put st fs prefix oid s = Ok (n, s', fs') →
  n = Z.of_nat (length (BinaryIO.remaining s))
  ∧ FS.stat fs' (LocalStorage._get_path st prefix oid)
    = Some (FS.File (BinaryIO.remaining s))
  ∧ BinaryIO.remaining s' = [].
Proof.
  intros Hput.
  apply local_put_inv in Hput
    as (fs1 & q & _ & Hne & Hend & Hq & Hnode & -> & -> & ->).
  split; [reflexivity|]. split; [|apply read_exhausts].
  unfold FS.stat, FS.stat_r. rewrite Hne.
  rewrite (resolve_keeps fs1
             (FS.with_nodes fs1
                (<[q := FS.File (BinaryIO.remaining s)]> (FS.nodes fs1)))
             _ q eq_refl (insert_file_keeps _ q _ Hnode) Hq).
  simpl. destruct q as [|c q]; [done|]. simpl.
  by rewrite lookup_insert_eq, Hend.
Qed.

(** After a [put] that returns, the directory of the path is there. *)
Lemma local_put_dirname (st : LocalStorage.t) (fs : FS.t) (prefix oid : string)
      (s : BinaryIO.t) (n : Z) (s' : BinaryIO.t) (fs' : FS.t) :
  LocalStorage.put st fs prefix oid s = Ok (n, s', fs') →
  FS.isdir fs' (PosixPath.dirname (LocalStorage._get_path st prefix oid)) = true.
Proof.
  intros Hput.
  apply local_put_inv in Hput
    as (fs1 & q & Hcreate & Hne & Hend & Hq & Hnode & _ & _ & ->).
  set (path := LocalStorage._get_path st prefix oid) in *.
  destruct (PyStr.is_empty (PosixPath.dirname path)) eqn:Hd.
  { destruct (PosixPath.dirname path); [|discriminate Hd].
    by rewrite create_path_empty in Hcreate. }
  rewrite (resolve_dirname fs1 path Hd) in Hq.
  destruct (FS.resolve fs1 (PosixPath.dirname path)) as [q0|e] eqn:Hq0;
    [|discriminate Hq].
  simpl in Hq.
  assert (Htail : PyStr.after_last "/" path ≠ EmptyString).
  { intros Ht. unfold PosixPath.dirname in Hd.
    destruct (PyStr.upto_last "/" path) as [h|] eqn:Hu; [|discriminate Hd].
    destruct (upto_last_some "/" path h Hu) as (h0 & _ & Hp & _).
    rewrite Ht in Hp. rewrite Hp in Hend.
    pose proof (endswith_sep_snoc h0) as Hs. unfold PosixPath.sep in Hs.
    by rewrite Hs in Hend. }
  assert (Hdir : FS.node_at (FS.nodes fs1) q0 = Some FS.Dir).
  { unfold FS.step in Hq.
    destruct (String.eqb_spec (PyStr.after_last "/" path) EmptyString);
      [done|].
    by destruct (FS.node_at (FS.nodes fs1) q0) as [[content|]|]. }
  unfold FS.isdir, FS.stat, FS.stat_r. rewrite Hd.
  rewrite (resolve_keeps fs1
             (FS.with_nodes fs1
                (<[q := FS.File (BinaryIO.remaining s)]> (FS.nodes fs1)))
             _ q0 eq_refl (insert_file_keeps _ q _ Hnode) Hq0).
  simpl. by rewrite (insert_file_keeps _ q _ Hnode q0 Hdir).
Qed.



Example local_put_creates_directories :
  ∃ s' fs',
    LocalStorage.put Sample.local Sample.empty_fs "org/repo" "abc"
      Sample.advanced_stream = Ok (3, s', fs')
    ∧ FS.isdir fs' "lfs-storage/org/repo" = true
    ∧ FS.stat fs' "lfs-storage/org/repo/abc"
      = Some (FS.File [Byte.x6c; Byte.x6c; Byte.x6f]).
Proof. do 2 eexists. split; [vm_compute; reflexivity|]. by vm_compute. Qed.

Example local_put_overwrites :
  ∃ s' fs',
    LocalStorage.put Sample.local Sample.fs "org/repo" "abc"
      (BinaryIO.of_bytes Sample.five_bytes) = Ok (5, s', fs')
    ∧ LocalStorage.get_size Sample.local fs' "org/repo" "abc" = Ok 5.
Proof. do 2 eexists. split; [vm_compute; reflexivity|]. by vm_compute. Qed.

Example makedirs_through_parent :
  ∃ fs', FS.makedirs Sample.empty_fs "a/../b" = Ok fs'
         ∧ FS.isdir fs' "a" = true ∧ FS.isdir fs' "b" = true.
Proof. eexists. split; [vm_compute; reflexivity|]. by vm_compute. Qed.

Example local_put_file_in_the_way :
  LocalStorage.put Sample.local Sample.fs "org/repo/abc" "def"
    (BinaryIO.of_bytes Sample.five_bytes) = Raise FileExistsError.
Proof. reflexivity. Qed.

Lemma cloud_put_at_start (self : GoogleCloudBlobStorage.t) (svc : Gcs.t)
      (prefix oid : string) (s : BinaryIO.t) (b : Gcs.blobs) :
  BinaryIO.pos s = 0%nat →
  Gcs.buckets svc !! GoogleCloudBlobStorage.bucket_name self = Some b →
  GoogleCloudBlobStorage.put self svc prefix oid s
  = (Ok (Z.of_nat (length (BinaryIO.data s)), (BinaryIO.read s).2),
     Gcs.with_buckets svc
       (<[GoogleCloudBlobStorage.bucket_name self :=
           <[GoogleCloudBlobStorage._get_blob_path self prefix oid :=
              BinaryIO.data s]> b]> (Gcs.buckets svc))).
Proof.
  intros Hpos Hb.
  unfold GoogleCloudBlobStorage.put, Gcs.upload_from_file, BinaryIO.tell,
    BinaryIO.read, BinaryIO.remaining.
  rewrite Hpos, Hb. simpl. by rewrite drop_0.
Qed.





(** ** The local store *)

(** The three readers of the local store, by the bytes it holds. *)
Lemma local_readers (st : LocalStorage.t) (fs : FS.t) (prefix oid : string) :
  LocalStorage.exists_ st fs prefix oid
  = match stored_bytes st fs prefix oid with Some _ => true | None => false end
  ∧ LocalStorage.get st fs prefix oid
    = match stored_bytes st fs prefix oid with
      | Some c => Ok (BinaryIO.of_bytes c)
      | None => Raise (NotFound "Requested object was not found")
      end
  ∧ LocalStorage.get_size st fs prefix oid
    = match stored_bytes st fs prefix oid with
      | Some c => Ok (Z.of_nat (length c))
      | None => Ok 0
      end.
Proof.
  unfold LocalStorage.exists_, LocalStorage.get, LocalStorage.get_size,
    LocalStorage.exists_, FS.isfile, FS.open_r, FS.getsize, stored_bytes, FS.stat.
  by destruct (FS.stat_r fs _) as [[c|]|e].
Qed.

Lemma stat_file_inv (fs : FS.t) (p : string) (c : list Byte.byte) :
  FS.stat fs p = Some (FS.File c) →
  PyStr.is_empty p = false
  ∧ PyStr.endswith p "/" = false
  ∧ ∃ q, FS.resolve fs p = Ok q ∧ FS.node_at (FS.nodes fs) q = Some (FS.File c).
Proof.
  unfold FS.stat, FS.stat_r.
  destruct (PyStr.is_empty p); [discriminate|].
  destruct (FS.resolve fs p) as [q|e]; [|discriminate]. simpl.
  destruct (FS.node_at (FS.nodes fs) q) as [[c'|]|] eqn:Hq; try discriminate.
  destruct (PyStr.endswith p "/"); [discriminate|].
  intros [= ->]. repeat split. by exists q.
Qed.

Lemma open_w_closed (fs : FS.t) (p : string) :
  PyStr.is_empty p = true ∨ PyStr.endswith p PosixPath.sep = true →
  ∃ e, FS.open_w fs p = Raise e.
Proof.
  unfold FS.open_w, PosixPath.sep. intros [->| Hend]; [by eexists|].
  destruct (PyStr.is_empty p); [by eexists|]. rewrite Hend. by eexists.
Qed.

Lemma lacks_sep_relative (s : string) : lacks "/" s = true → absolute s = false.
Proof.
  destruct s as [|a s]; [reflexivity|]. simpl. intros H.
  apply andb_true_iff in H as [Ha _]. unfold absolute.
  rewrite startswith_sep_cons. by apply negb_true_iff.
Qed.

(** An object that is stored stays stored, with its bytes, when the tree
    grows. *)
Lemma stored_bytes_extends (st : LocalStorage.t) (fs fs' : FS.t)
      (prefix oid : string) (c : list Byte.byte) :
  extends fs fs' →
  stored_bytes st fs prefix oid = Some c → stored_bytes st fs' prefix oid = Some c.
Proof.
  intros He. unfold stored_bytes.
  destruct (FS.stat fs _) as [[c'|]|] eqn:Hstat; try discriminate.
  intros [= ->]. by rewrite (stat_file_extends fs fs' _ c He Hstat).
Qed.

Section LocalStore.

Variable st : LocalStorage.t.
Variable fs : FS.t.
Variables prefix oid : string.

(** X1: the readers of the local store agree: when [exists] holds, [get]
    opens the stored bytes at position 0 and [get_size] is their number;
    when it does not, [get] raises [NotFound] and [get_size] is 0. *)
Theorem local_readers_agree :
  if LocalStorage.exists_ st fs prefix oid
  then ∃ c, FS.stat fs (LocalStorage._get_path st prefix oid) = Some (FS.File c)
            ∧ LocalStorage.get st fs prefix oid = Ok (BinaryIO.of_bytes c)
            ∧ LocalStorage.get_size st fs prefix oid = Ok (Z.of_nat (length c))
  else LocalStorage.get st fs prefix oid
       = Raise (NotFound "Requested object was not found")
       ∧ LocalStorage.get_size st fs prefix oid = Ok 0.
Proof.
  unfold LocalStorage.exists_, LocalStorage.get, LocalStorage.get_size,
    LocalStorage.exists_, FS.isfile, FS.open_r, FS.getsize, FS.stat.
  destruct (FS.stat_r fs _) as [[c|]|e]; [by exists c | done | done].
Qed.

(** X2: what a [put] that returns has stored is what the stream had left;
    the object then exists, [get] yields those bytes, and [get_size] is the
    number [put] returned. *)
Theorem local_put_then_read (s : BinaryIO.t) (n : Z) (s' : BinaryIO.t)
        (fs' : FS.t) :
  LocalStorage.put st fs prefix oid s = Ok (n, s', fs') →
  LocalStorage.exists_ st fs' prefix oid = true
  ∧ LocalStorage.get st fs' prefix oid = Ok (BinaryIO.of_bytes (BinaryIO.remaining s))
  ∧ LocalStorage.get_size st fs' prefix oid = Ok n
  ∧ n = Z.of_nat (length (BinaryIO.remaining s))
  ∧ BinaryIO.remaining s' = [].
Proof.
  intros Hput. apply local_put_result in Hput as (-> & Hstat & Hrest).
  destruct (local_readers st fs' prefix oid) as (-> & -> & ->).
  unfold stored_bytes. by rewrite Hstat.
Qed.

(** X3: an object that is stored before a [put] that returns, under a key
    that does not lead to the file the [put] writes, is stored with the
    same bytes after it. *)
Theorem local_put_keeps_other_objects (s : BinaryIO.t) (n : Z) (s' : BinaryIO.t)
        (fs' : FS.t) (st' : LocalStorage.t) (prefix' oid' : string)
        (c : list Byte.byte) :
  LocalStorage.put st fs prefix oid s = Ok (n, s', fs') →
  FS.stat fs (LocalStorage._get_path st' prefix' oid') = Some (FS.File c) →
  FS.resolve fs' (LocalStorage._get_path st' prefix' oid')
  ≠ FS.resolve fs' (LocalStorage._get_path st prefix oid) →
  LocalStorage.exists_ st' fs' prefix' oid' = true
  ∧ LocalStorage.get st' fs' prefix' oid' = Ok (BinaryIO.of_bytes c)
  ∧ LocalStorage.get_size st' fs' prefix' oid' = Ok (Z.of_nat (length c)).
Proof.
  intros Hput Hstat Hne.
  apply local_put_inv in Hput
    as (fs1 & q & Hcreate & _ & _ & Hq & Hnode & _ & _ & ->).
  apply create_path_extends in Hcreate.
  apply (stat_file_extends fs fs1 _ c Hcreate) in Hstat.
  apply stat_file_inv in Hstat as (Hempty & Hend & q' & Hq' & Hfile).
  set (fs' := FS.with_nodes fs1
                (<[q := FS.File (BinaryIO.remaining s)]> (FS.nodes fs1))) in *.
  pose proof (insert_file_keeps (FS.nodes fs1) q (BinaryIO.remaining s) Hnode)
    as Hkeeps.
  rewrite (resolve_keeps fs1 fs' _ q eq_refl Hkeeps Hq),
    (resolve_keeps fs1 fs' _ q' eq_refl Hkeeps Hq') in Hne.
  assert (Hstored : stored_bytes st' fs' prefix' oid' = Some c).
  { unfold stored_bytes, FS.stat, FS.stat_r. rewrite Hempty.
    rewrite (resolve_keeps fs1 fs' _ q' eq_refl Hkeeps Hq'). simpl.
    destruct q' as [|x q']; [discriminate Hfile|]. simpl in *.
    rewrite lookup_insert_ne by congruence. by rewrite Hfile, Hend. }
  destruct (local_readers st' fs' prefix' oid') as (-> & -> & ->).
  by rewrite Hstored.
Qed.

(** X4: when [_create_path] returns, every object that was stored is
    stored with the same bytes, and every directory still is one. *)
Theorem create_path_keeps_objects (p : string) (fs' : FS.t) (c : list Byte.byte)
        (d : string) :
  LocalStorage._create_path fs p = Ok fs' →
  (FS.stat fs (LocalStorage._get_path st prefix oid) = Some (FS.File c) →
   LocalStorage.exists_ st fs' prefix oid = true
   ∧ LocalStorage.get st fs' prefix oid = Ok (BinaryIO.of_bytes c)
   ∧ LocalStorage.get_size st fs' prefix oid = Ok (Z.of_nat (length c)))
  ∧ (FS.isdir fs d = true → FS.isdir fs' d = true).
Proof.
  intros Hcreate. apply create_path_extends in Hcreate. split.
  - intros Hstat.
    destruct (local_readers st fs' prefix oid) as (-> & -> & ->).
    unfold stored_bytes. by rewrite (stat_file_extends fs fs' _ c Hcreate Hstat).
  - unfold FS.isdir. destruct (FS.stat fs d) as [[c'|]|] eqn:Hd; try discriminate.
    by rewrite (stat_dir_extends fs fs' d Hcreate Hd).
Qed.

(** X6: an empty oid names no object: [exists] is false, [get] raises
    [NotFound], [get_size] is 0, and [put] raises. *)
Theorem empty_oid_names_nothing (s : BinaryIO.t) :
  LocalStorage.exists_ st fs prefix EmptyString = false
  ∧ LocalStorage.get st fs prefix EmptyString
    = Raise (NotFound "Requested object was not found")
  ∧ LocalStorage.get_size st fs prefix EmptyString = Ok 0
  ∧ ∃ e, LocalStorage.put st fs prefix EmptyString s = Raise e.
Proof.
  assert (Hpath : LocalStorage._get_path st prefix EmptyString
                  = with_sep (PosixPath.join (LocalStorage.path st) [prefix])).
  { unfold LocalStorage._get_path, PosixPath.join. simpl.
    rewrite (join_step_relative _ EmptyString eq_refl). apply append_empty_r. }
  assert (Hnone : stored_bytes st fs prefix EmptyString = None).
  { unfold stored_bytes, FS.stat, FS.stat_r. rewrite Hpath.
    destruct (with_sep_closed (PosixPath.join (LocalStorage.path st) [prefix]))
      as [->| Hend]; [reflexivity|].
    destruct (PyStr.is_empty _); [reflexivity|].
    unfold PosixPath.sep in Hend. rewrite Hend.
    destruct (FS.resolve fs _) as [q|e]; [|reflexivity]. simpl.
    by destruct (FS.node_at _ _) as [[c|]|]. }
  destruct (local_readers st fs prefix EmptyString) as (-> & -> & ->).
  rewrite Hnone. repeat split.
  unfold LocalStorage.put. rewrite Hpath.
  destruct (LocalStorage._create_path fs _) as [fs1|e]; [|by exists e].
  destruct (open_w_closed fs1 _ (with_sep_closed
              (PosixPath.join (LocalStorage.path st) [prefix]))) as [e He].
  exists e. unfold mbind, result_bind. cbv beta iota. by rewrite He.
Qed.

End LocalStore.

Lemma local_put_then_read_witness :
  ∃ s' fs',
    LocalStorage.put Sample.local Sample.empty_fs "org/repo" "abc"
      Sample.advanced_stream = Ok (3, s', fs')
    ∧ LocalStorage.get Sample.local fs' "org/repo" "abc"
      = Ok (BinaryIO.of_bytes [Byte.x6c; Byte.x6c; Byte.x6f])
    ∧ LocalStorage.get_size Sample.local fs' "org/repo" "abc" = Ok 3.
Proof.
  destruct (LocalStorage.put Sample.local Sample.empty_fs "org/repo" "abc"
              Sample.advanced_stream) as [[[n s'] fs']|e] eqn:Hput.
  - destruct (local_put_then_read Sample.local Sample.empty_fs "org/repo" "abc"
                Sample.advanced_stream n s' fs' Hput)
      as (_ & Hget & Hsize & Hn & _).
    vm_compute in Hn. subst n. exists s', fs'.
    split; [reflexivity|]. split; [exact Hget | exact Hsize].
  - vm_compute in Hput. discriminate Hput.
Defined.

Lemma local_put_keeps_other_objects_witness :
  ∃ s' fs',
    LocalStorage.put Sample.local Sample.fs "org/repo" "def"
      Sample.advanced_stream = Ok (3, s', fs')
    ∧ LocalStorage.get Sample.local fs' "org/repo" "abc"
      = Ok (BinaryIO.of_bytes Sample.three_bytes).
Proof.
  destruct (LocalStorage.put Sample.local Sample.fs "org/repo" "def"
              Sample.advanced_stream) as [[[n s'] fs']|e] eqn:Hput.
  - assert (Hn : n = 3) by (vm_compute in Hput; congruence).
    subst n. exists s', fs'. split; [reflexivity|].
    refine (proj1 (proj2 (local_put_keeps_other_objects Sample.local Sample.fs
                            "org/repo" "def" Sample.advanced_stream 3 s' fs'
                            Sample.local "org/repo" "abc" Sample.three_bytes
                            Hput ltac:(vm_compute; reflexivity) _))).
    vm_compute in Hput. injection Hput as _ <-.
    intros H. vm_compute in H. discriminate H.
  - vm_compute in Hput. discriminate Hput.
Defined.

Lemma create_path_keeps_objects_witness :
  ∃ fs',
    LocalStorage._create_path Sample.fs "lfs-storage/other/repo" = Ok fs'
    ∧ LocalStorage.get Sample.local fs' "org/repo" "abc"
      = Ok (BinaryIO.of_bytes Sample.three_bytes)
    ∧ FS.isdir fs' "lfs-storage/org" = true.
Proof.
  destruct (LocalStorage._create_path Sample.fs "lfs-storage/other/repo")
    as [fs'|e] eqn:Hcreate.
  - exists fs'. split; [reflexivity|].
    destruct (create_path_keeps_objects Sample.local Sample.fs "org/repo" "abc"
                "lfs-storage/other/repo" fs' Sample.three_bytes "lfs-storage/org"
                Hcreate) as [Hobj Hdir].
    split.
    + exact (proj1 (proj2 (Hobj ltac:(vm_compute; reflexivity)))).
    + exact (Hdir ltac:(vm_compute; reflexivity)).
  - vm_compute in Hcreate. discriminate Hcreate.
Defined.

(** X5: a constructor call that returns has taken the configured root, or
    [lfs-storage] without one, and every object that was stored under any
    root is stored with the same bytes. *)
Theorem local_init_keeps_objects (path : option string) (fs : FS.t)
        (st : LocalStorage.t) (fs' : FS.t) (st0 : LocalStorage.t)
        (prefix oid : string) (c : list Byte.byte) :
  LocalStorage.__init__ path fs = Ok (st, fs') →
  LocalStorage.path st = default "lfs-storage" path
  ∧ (FS.stat fs (LocalStorage._get_path st0 prefix oid) = Some (FS.File c) →
     LocalStorage.exists_ st0 fs' prefix oid = true
     ∧ LocalStorage.get st0 fs' prefix oid = Ok (BinaryIO.of_bytes c)
     ∧ LocalStorage.get_size st0 fs' prefix oid = Ok (Z.of_nat (length c))).
Proof.
  unfold LocalStorage.__init__.
  replace (match path with Some p => p | None => "lfs-storage" end)
    with (default "lfs-storage" path) by (by destruct path).
  destruct (LocalStorage._create_path fs _) as [fs1|e] eqn:Hcreate; [|discriminate].
  simpl. intros [= <- <-]. split; [reflexivity|].
  intros Hstat. apply create_path_extends in Hcreate.
  destruct (local_readers st0 fs1 prefix oid) as (-> & -> & ->).
  unfold stored_bytes. by rewrite (stat_file_extends fs fs1 _ c Hcreate Hstat).
Qed.

Lemma local_init_keeps_objects_witness :
  ∃ st fs',
    LocalStorage.__init__ (Some "other-root") Sample.fs = Ok (st, fs')
    ∧ LocalStorage.path st = "other-root"
    ∧ LocalStorage.get Sample.local fs' "org/repo" "abc"
      = Ok (BinaryIO.of_bytes Sample.three_bytes).
Proof.
  destruct (LocalStorage.__init__ (Some "other-root") Sample.fs)
    as [[st fs']|e] eqn:Hinit.
  - exists st, fs'. split; [reflexivity|].
    destruct (local_init_keeps_objects (Some "other-root") Sample.fs st fs'
                Sample.local "org/repo" "abc" Sample.three_bytes Hinit)
      as [Hpath Hobj].
    split; [exact Hpath|].
    exact (proj1 (proj2 (Hobj ltac:(vm_compute; reflexivity)))).
  - vm_compute in Hinit. discriminate Hinit.
Defined.

(** X7: when the root joined with the namespace is not empty and does not
    end with the separator, and the oid has no separator, the directory of
    the object's path is that join, and it is a directory after a [put] that
    returns. *)
Theorem local_put_directory (st : LocalStorage.t) (fs : FS.t) (prefix oid : string)
        (s : BinaryIO.t) (n : Z) (s' : BinaryIO.t) (fs' : FS.t) :
  PyStr.is_empty (PosixPath.join (LocalStorage.path st) [prefix]) = false →
  PyStr.endswith (PosixPath.join (LocalStorage.path st) [prefix]) PosixPath.sep
  = false →
  lacks "/" oid = true →
  LocalStorage.put st fs prefix oid s = Ok (n, s', fs') →
  PosixPath.dirname (LocalStorage._get_path st prefix oid)
  = PosixPath.join (LocalStorage.path st) [prefix]
  ∧ FS.isdir fs' (PosixPath.join (LocalStorage.path st) [prefix]) = true.
Proof.
  intros Hd Hend Hoid Hput.
  assert (Hdirname : PosixPath.dirname (LocalStorage._get_path st prefix oid)
                     = PosixPath.join (LocalStorage.path st) [prefix]).
  { unfold LocalStorage._get_path.
    change (PosixPath.join (LocalStorage.path st) [prefix; oid])
      with (PosixPath.join_step (PosixPath.join (LocalStorage.path st) [prefix]) oid).
    rewrite (join_step_relative _ oid (lacks_sep_relative oid Hoid)).
    rewrite (with_sep_open _ Hd Hend), append_assoc.
    by apply dirname_of_child. }
  split; [exact Hdirname|].
  apply local_put_dirname in Hput. by rewrite Hdirname in Hput.
Qed.

Lemma local_put_directory_witness :
  ∃ s' fs',
    LocalStorage.put Sample.local Sample.empty_fs "org/repo" "abc"
      Sample.advanced_stream = Ok (3, s', fs')
    ∧ PosixPath.dirname (LocalStorage._get_path Sample.local "org/repo" "abc")
      = "lfs-storage/org/repo"
    ∧ FS.isdir fs' "lfs-storage/org/repo" = true.
Proof.
  destruct (LocalStorage.put Sample.local Sample.empty_fs "org/repo" "abc"
              Sample.advanced_stream) as [[[n s'] fs']|e] eqn:Hput.
  - assert (Hn : n = 3) by (vm_compute in Hput; congruence).
    subst n. exists s', fs'. split; [reflexivity|].
    exact (local_put_directory Sample.local Sample.empty_fs "org/repo" "abc"
             Sample.advanced_stream 3 s' fs' eq_refl eq_refl eq_refl Hput).
  - vm_compute in Hput. discriminate Hput.
Defined.
(** ** The view and the adapter over one store *)

(** For the names a route delivers, the prefix [put] formats is the prefix
    [get] and the adapter join. *)
Lemma route_prefix (organization repo : string) :
  PyStr.is_empty organization = false →
  PyStr.endswith organization PosixPath.sep = false →
  absolute repo = false →
  organization ++ "/" ++ repo = PosixPath.join organization [repo].
Proof.
  intros Hne Hend Hrepo.
  change (PosixPath.join organization [repo])
    with (PosixPath.join_step organization repo).
  rewrite (join_step_relative _ repo Hrepo), (with_sep_open _ Hne Hend).
  by rewrite append_assoc.
Qed.

Lemma local_get_size_bounds (st : LocalStorage.t) (fs : FS.t) (prefix oid : string) :
  ∃ stored, LocalStorage.get_size st fs prefix oid = Ok stored ∧ 0 ≤ stored.
Proof.
  rewrite local_get_size_stat.
  destruct (FS.stat fs _) as [[c|]|]; eexists; (split; [reflexivity | lia]).
Qed.

Lemma view_put_inv (view : ObjectsView.t) (fs : FS.t) (s : BinaryIO.t)
      (organization repo oid : string) (resp : Response) (s' : BinaryIO.t)
      (fs' : FS.t) :
  ObjectsView.put view fs s organization repo oid = Ok (resp, s', fs') →
  resp = {| response := None; status := 200; direct_passthrough := false |}
  ∧ ∃ n, LocalStorage.put (ObjectsView.storage view) fs
           (organization ++ "/" ++ repo) oid s = Ok (n, s', fs').
Proof.
  unfold ObjectsView.put.
  destruct (LocalStorage.put _ fs _ oid s) as [[[n s1] fs1]|e]; [|discriminate].
  simpl. intros [= <- <- <-]. split; [reflexivity | by exists n].
Qed.

Section ViewAndAdapter.

Variable url_for : string → pydict → string.
Variable view : ObjectsView.t.
Variable self : BasicStreamedTransferAdapter.t.
Variable fs : FS.t.
Variables organization repo oid : string.


(** X9: for an organization that is not empty and does not end with the
    separator and a repo that does not begin with it, a [put] of the view
    that returns answers 200, has read the stream to its end, and is
    followed by a [get] that answers with the bytes the stream had left. *)
Theorem view_put_then_get (s : BinaryIO.t) (resp : Response) (s' : BinaryIO.t)
        (fs' : FS.t) :
  PyStr.is_empty organization = false →
  PyStr.endswith organization PosixPath.sep = false →
  absolute repo = false →
  ObjectsView.put view fs s organization repo oid = Ok (resp, s', fs') →
  status resp = 200
  ∧ BinaryIO.remaining s' = []
  ∧ ObjectsView.get view fs' organization repo oid
    = Ok {| response := Some (BinaryIO.of_bytes (BinaryIO.remaining s));
            status := 200;
            direct_passthrough := true |}.
Proof.
  intros Hne Hend Hrepo Hput.
  apply view_put_inv in Hput as (-> & n & Hput).
  rewrite (route_prefix _ _ Hne Hend Hrepo) in Hput.
  apply local_put_result in Hput as (_ & Hstat & Hrest).
  split; [reflexivity|]. split; [exact Hrest|].
  unfold ObjectsView.get.
  destruct (local_readers (ObjectsView.storage view) fs'
              (PosixPath.join organization [repo]) oid) as (-> & -> & _).
  unfold stored_bytes. by rewrite Hstat.
Qed.

(** X10: [download] offers its action exactly when [upload] offers none,
    and reports an error exactly when [upload] offers its actions. *)
Theorem download_upload_complement (size : Z) :
  ∃ rd ru,
    BasicStreamedTransferAdapter.download url_for self fs organization repo oid size
    = Ok rd
    ∧ BasicStreamedTransferAdapter.upload url_for self fs organization repo oid size
      = Ok ru
    ∧ has_key rd "actions" = negb (has_key ru "actions")
    ∧ has_key rd "error" = has_key ru "actions".
Proof.
  unfold BasicStreamedTransferAdapter.download, BasicStreamedTransferAdapter.upload.
  destruct (local_get_size_total (BasicStreamedTransferAdapter.storage self) fs
              (PosixPath.join organization [repo]) oid) as [stored ->].
  destruct (LocalStorage.exists_ _ fs _ oid); simpl;
    [destruct (stored =? size); simpl|]; by do 2 eexists.
Qed.

(** X11: both answers carry the oid and the size of the request; [upload]
    always sets [authenticated], [download] sets it only beside its
    action. *)
Theorem responses_echo_request (size : Z) :
  ∃ rd ru,
    BasicStreamedTransferAdapter.download url_for self fs organization repo oid size
    = Ok rd
    ∧ BasicStreamedTransferAdapter.upload url_for self fs organization repo oid size
      = Ok ru
    ∧ rd !! "oid" = Some (PyStr oid) ∧ rd !! "size" = Some (PyInt size)
    ∧ ru !! "oid" = Some (PyStr oid) ∧ ru !! "size" = Some (PyInt size)
    ∧ ru !! "authenticated" = Some (PyBool true)
    ∧ has_key rd "authenticated" = has_key rd "actions".
Proof.
  unfold BasicStreamedTransferAdapter.download, BasicStreamedTransferAdapter.upload.
  destruct (local_get_size_total (BasicStreamedTransferAdapter.storage self) fs
              (PosixPath.join organization [repo]) oid) as [stored ->].
  destruct (LocalStorage.exists_ _ fs _ oid); simpl;
    [destruct (stored =? size); simpl|]; by do 2 eexists.
Qed.

(** X12: for a negative declared size [download] reports an error and
    offers no action, and [upload] offers its actions. *)
Theorem negative_size_never_matches (size : Z) :
  size < 0 →
  ∃ rd ru,
    BasicStreamedTransferAdapter.download url_for self fs organization repo oid size
    = Ok rd
    ∧ BasicStreamedTransferAdapter.upload url_for self fs organization repo oid size
      = Ok ru
    ∧ has_key rd "error" = true
    ∧ has_key rd "actions" = false
    ∧ has_key ru "actions" = true.
Proof.
  intros Hneg.
  unfold BasicStreamedTransferAdapter.download, BasicStreamedTransferAdapter.upload.
  destruct (local_get_size_bounds (BasicStreamedTransferAdapter.storage self) fs
              (PosixPath.join organization [repo]) oid) as (stored & -> & Hpos).
  destruct (LocalStorage.exists_ _ fs _ oid); simpl; [|by do 2 eexists].
  destruct (Z.eqb_spec stored size) as [->|_]; [lia|]. simpl. by do 2 eexists.
Qed.

(** X13: once the view's [put] has returned for route names as in X9, the
    adapter over the same store offers a [download] of the object for the
    number of bytes the stream had left, and no [upload] for it. *)
Theorem uploaded_object_is_offered (s : BinaryIO.t) (resp : Response)
        (s' : BinaryIO.t) (fs' : FS.t) :
  PyStr.is_empty organization = false →
  PyStr.endswith organization PosixPath.sep = false →
  absolute repo = false →
  BasicStreamedTransferAdapter.storage self = ObjectsView.storage view →
  ObjectsView.put view fs s organization repo oid = Ok (resp, s', fs') →
  ∃ rd ru,
    BasicStreamedTransferAdapter.download url_for self fs' organization repo oid
      (Z.of_nat (length (BinaryIO.remaining s))) = Ok rd
    ∧ BasicStreamedTransferAdapter.upload url_for self fs' organization repo oid
        (Z.of_nat (length (BinaryIO.remaining s))) = Ok ru
    ∧ has_key rd "actions" = true
    ∧ has_key rd "error" = false
    ∧ has_key ru "actions" = false.
Proof.
  intros Hne Hend Hrepo Hstore Hput.
  apply view_put_inv in Hput as (_ & n & Hput).
  rewrite (route_prefix _ _ Hne Hend Hrepo), <- Hstore in Hput.
  pose proof (local_put_result _ _ _ _ _ _ _ _ Hput) as (-> & Hstat & _).
  unfold BasicStreamedTransferAdapter.download, BasicStreamedTransferAdapter.upload.
  destruct (local_readers (BasicStreamedTransferAdapter.storage self) fs'
              (PosixPath.join organization [repo]) oid) as (-> & _ & ->).
  unfold stored_bytes. rewrite Hstat. simpl. rewrite Z.eqb_refl. simpl.
  by do 2 eexists.
Qed.

End ViewAndAdapter.

Lemma view_put_then_get_witness :
  ∃ resp s' fs',
    ObjectsView.put Sample.view Sample.empty_fs Sample.advanced_stream
      "org" "repo" "abc" = Ok (resp, s', fs')
    ∧ status resp = 200
    ∧ ObjectsView.get Sample.view fs' "org" "repo" "abc"
      = Ok {| response := Some (BinaryIO.of_bytes [Byte.x6c; Byte.x6c; Byte.x6f]);
              status := 200;
              direct_passthrough := true |}.
Proof.
  destruct (ObjectsView.put Sample.view Sample.empty_fs Sample.advanced_stream
              "org" "repo" "abc") as [[[resp s'] fs']|e] eqn:Hput.
  - exists resp, s', fs'. split; [reflexivity|].
    destruct (view_put_then_get Sample.view Sample.empty_fs "org" "repo" "abc"
                Sample.advanced_stream resp s' fs' eq_refl eq_refl eq_refl Hput)
      as (Hstatus & _ & Hget).
    exact (conj Hstatus Hget).
  - vm_compute in Hput. discriminate Hput.
Defined.

Lemma negative_size_never_matches_witness :
  ∃ rd ru,
    BasicStreamedTransferAdapter.download Sample.url_for Sample.adapter Sample.fs
      "org" "repo" "abc" (-1) = Ok rd
    ∧ BasicStreamedTransferAdapter.upload Sample.url_for Sample.adapter Sample.fs
        "org" "repo" "abc" (-1) = Ok ru
    ∧ has_key rd "error" = true
    ∧ has_key rd "actions" = false
    ∧ has_key ru "actions" = true.
Proof.
  exact (negative_size_never_matches Sample.url_for Sample.adapter Sample.fs
           "org" "repo" "abc" (-1) ltac:(lia)).
Defined.

Lemma uploaded_object_is_offered_witness :
  ∃ resp s' fs' rd ru,
    ObjectsView.put Sample.view Sample.empty_fs Sample.advanced_stream
      "org" "repo" "abc" = Ok (resp, s', fs')
    ∧ BasicStreamedTransferAdapter.download Sample.url_for Sample.adapter fs'
        "org" "repo" "abc" 3 = Ok rd
    ∧ BasicStreamedTransferAdapter.upload Sample.url_for Sample.adapter fs'
        "org" "repo" "abc" 3 = Ok ru
    ∧ has_key rd "actions" = true
    ∧ has_key ru "actions" = false.
Proof.
  destruct (ObjectsView.put Sample.view Sample.empty_fs Sample.advanced_stream
              "org" "repo" "abc") as [[[resp s'] fs']|e] eqn:Hput.
  - destruct (uploaded_object_is_offered Sample.url_for Sample.view Sample.adapter
                Sample.empty_fs "org" "repo" "abc" Sample.advanced_stream resp s' fs'
                eq_refl eq_refl eq_refl eq_refl Hput)
      as (rd & ru & Hd & Hu & Hda & _ & Hua).
    exists resp, s', fs', rd, ru. split; [reflexivity|].
    split; [exact Hd|]. split; [exact Hu|]. exact (conj Hda Hua).
  - vm_compute in Hput. discriminate Hput.
Defined.

(** ** The cloud store *)

Lemma cloud_readers (self : GoogleCloudBlobStorage.t) (svc : Gcs.t)
      (prefix oid : string) :
  let path := GoogleCloudBlobStorage._get_blob_path self prefix oid in
  match Gcs.buckets svc !! GoogleCloudBlobStorage.bucket_name self with
  | Some b =>
      match b !! path with
      | Some c =>
          GoogleCloudBlobStorage.exists_ self svc prefix oid = true
          ∧ GoogleCloudBlobStorage.get self svc prefix oid = Ok c
          ∧ GoogleCloudBlobStorage.get_size self svc prefix oid
            = Ok (Z.of_nat (length c))
      | None =>
          GoogleCloudBlobStorage.exists_ self svc prefix oid = false
          ∧ GoogleCloudBlobStorage.get self svc prefix oid
            = Raise (GoogleCloudError GcsNotFound)
          ∧ GoogleCloudBlobStorage.get_size self svc prefix oid
            = Raise (ObjectNotFound "Object does not exist")
      end
  | None =>
      GoogleCloudBlobStorage.exists_ self svc prefix oid = false
      ∧ GoogleCloudBlobStorage.get self svc prefix oid
        = Raise (GoogleCloudError GcsNotFound)
      ∧ GoogleCloudBlobStorage.get_size self svc prefix oid
        = Raise (GoogleCloudError GcsNotFound)
  end.
Proof.
  unfold GoogleCloudBlobStorage.exists_, GoogleCloudBlobStorage.get,
    GoogleCloudBlobStorage.get_size, Gcs.blob_exists, Gcs.download_as_string,
    Gcs.get_bucket, Gcs.get_blob.
  cbv zeta.
  destruct (Gcs.buckets svc !! _) as [b|]; simpl; [|done].
  by destruct (b !! _) as [c|].
Qed.

Section CloudStore.

Variable self : GoogleCloudBlobStorage.t.
Variable svc : Gcs.t.
Variables prefix oid : string.


(** X15: for a stream at position 0 and a bucket that is there, [put]
    stores the bytes of the stream, returns their number and reads the
    stream to its end; the object then exists, [get] returns those bytes
    and [get_size] their number. *)
Theorem cloud_put_then_read (s : BinaryIO.t) (b : Gcs.blobs) :
  BinaryIO.pos s = 0%nat →
  Gcs.buckets svc !! GoogleCloudBlobStorage.bucket_name self = Some b →
  ∃ s' svc',
    GoogleCloudBlobStorage.put self svc prefix oid s
    = (Ok (Z.of_nat (length (BinaryIO.data s)), s'), svc')
    ∧ BinaryIO.remaining s' = []
    ∧ GoogleCloudBlobStorage.exists_ self svc' prefix oid = true
    ∧ GoogleCloudBlobStorage.get self svc' prefix oid = Ok (BinaryIO.data s)
    ∧ GoogleCloudBlobStorage.get_size self svc' prefix oid
      = Ok (Z.of_nat (length (BinaryIO.data s))).
Proof.
  intros Hpos Hb.
  rewrite (cloud_put_at_start self svc prefix oid s b Hpos Hb).
  do 2 eexists. split; [reflexivity|]. split; [apply (read_exhausts s)|].
  pose proof (cloud_readers self
                (Gcs.with_buckets svc
                   (<[GoogleCloudBlobStorage.bucket_name self :=
                       <[GoogleCloudBlobStorage._get_blob_path self prefix oid :=
                          BinaryIO.data s]> b]> (Gcs.buckets svc)))
                prefix oid) as H.
  cbv zeta in H. simpl in H. rewrite !lookup_insert_eq in H. exact H.
Qed.

(** X16: for a stream at position 0 and without the bucket, [put] raises
    the client's not-found error and leaves the service as it was: it does
    not create the bucket. *)
Theorem cloud_put_without_bucket (s : BinaryIO.t) :
  BinaryIO.pos s = 0%nat →
  Gcs.buckets svc !! GoogleCloudBlobStorage.bucket_name self = None →
  GoogleCloudBlobStorage.put self svc prefix oid s
  = (Raise (GoogleCloudError GcsNotFound), svc).
Proof.
  intros Hpos Hb.
  unfold GoogleCloudBlobStorage.put, Gcs.upload_from_file, BinaryIO.tell.
  by rewrite Hpos, Hb.
Qed.

(** X17: [put] leaves every other blob as it was: for a key with another
    bucket or another blob path, [exists], [get] and [get_size] answer after
    the [put] as before. *)
Theorem cloud_put_keeps_other_blobs (s : BinaryIO.t)
        (other : GoogleCloudBlobStorage.t) (prefix' oid' : string) :
  (GoogleCloudBlobStorage.bucket_name other,
   GoogleCloudBlobStorage._get_blob_path other prefix' oid')
  ≠ (GoogleCloudBlobStorage.bucket_name self,
     GoogleCloudBlobStorage._get_blob_path self prefix oid) →
  let svc' := (GoogleCloudBlobStorage.put self svc prefix oid s).2 in
  GoogleCloudBlobStorage.exists_ other svc' prefix' oid'
  = GoogleCloudBlobStorage.exists_ other svc prefix' oid'
  ∧ GoogleCloudBlobStorage.get other svc' prefix' oid'
    = GoogleCloudBlobStorage.get other svc prefix' oid'
  ∧ GoogleCloudBlobStorage.get_size other svc' prefix' oid'
    = GoogleCloudBlobStorage.get_size other svc prefix' oid'.
Proof.
  intros Hne. cbv zeta.
  unfold GoogleCloudBlobStorage.put, Gcs.upload_from_file.
  destruct (negb (BinaryIO.tell s =? 0)); [done|].
  destruct (Gcs.buckets svc !! GoogleCloudBlobStorage.bucket_name self)
    as [b|] eqn:Hb; [|done].
  simpl.
  unfold GoogleCloudBlobStorage.exists_, GoogleCloudBlobStorage.get,
    GoogleCloudBlobStorage.get_size, Gcs.blob_exists, Gcs.download_as_string,
    Gcs.get_bucket, Gcs.get_blob. simpl.
  destruct (decide (GoogleCloudBlobStorage.bucket_name self
                    = GoogleCloudBlobStorage.bucket_name other)) as [Heq|Hbucket].
  - rewrite <- Heq, lookup_insert_eq, Hb. simpl.
    rewrite lookup_insert_ne; [done|].
    intros Hpath. apply Hne. by rewrite <- Heq, Hpath.
  - by rewrite lookup_insert_ne.
Qed.

End CloudStore.

Lemma cloud_put_then_read_witness :
  ∃ s' svc',
    GoogleCloudBlobStorage.put Sample.cloud Sample.service "org/repo" "def"
      (BinaryIO.of_bytes Sample.five_bytes) = (Ok (5, s'), svc')
    ∧ GoogleCloudBlobStorage.get Sample.cloud svc' "org/repo" "def"
      = Ok Sample.five_bytes.
Proof.
  destruct (cloud_put_then_read Sample.cloud Sample.service "org/repo" "def"
              (BinaryIO.of_bytes Sample.five_bytes) _ eq_refl
              ltac:(vm_compute; reflexivity))
    as (s' & svc' & Hput & _ & _ & Hget & _).
  exists s', svc'. exact (conj Hput Hget).
Defined.

Lemma cloud_put_without_bucket_witness :
  GoogleCloudBlobStorage.put Sample.cloud Sample.fresh_service "org/repo" "abc"
    (BinaryIO.of_bytes Sample.five_bytes)
  = (Raise (GoogleCloudError GcsNotFound), Sample.fresh_service).
Proof.
  exact (cloud_put_without_bucket Sample.cloud Sample.fresh_service "org/repo" "abc"
           (BinaryIO.of_bytes Sample.five_bytes) eq_refl
           ltac:(vm_compute; reflexivity)).
Defined.

Lemma cloud_put_keeps_other_blobs_witness :
  GoogleCloudBlobStorage.get Sample.cloud
    (GoogleCloudBlobStorage.put Sample.cloud Sample.service "org/repo" "def"
       (BinaryIO.of_bytes Sample.five_bytes)).2 "org/repo" "abc"
  = GoogleCloudBlobStorage.get Sample.cloud Sample.service "org/repo" "abc".
Proof.
  refine (proj1 (proj2 (cloud_put_keeps_other_blobs Sample.cloud Sample.service
                          "org/repo" "def" (BinaryIO.of_bytes Sample.five_bytes)
                          Sample.cloud "org/repo" "abc" _))).
  intros H. vm_compute in H. discriminate H.
Defined.

Section CloudConstruction.

Variable from_service_account_json : string → result unit.
Variables bucket_name account_json_path : string.
Variable path_prefix : option string.
Variable svc : Gcs.t.

(** X18: whatever its outcome, the constructor leaves the stored blobs as
    they were: [exists] and [get] answer for every key after it as before. *)
Theorem cloud_init_keeps_blobs (other : GoogleCloudBlobStorage.t)
        (prefix oid : string) :
  let svc' := (GoogleCloudBlobStorage.__init__ from_service_account_json bucket_name
                 account_json_path path_prefix svc).2 in
  GoogleCloudBlobStorage.exists_ other svc' prefix oid
  = GoogleCloudBlobStorage.exists_ other svc prefix oid
  ∧ GoogleCloudBlobStorage.get other svc' prefix oid
    = GoogleCloudBlobStorage.get other svc prefix oid.
Proof.
  cbv zeta. unfold GoogleCloudBlobStorage.__init__.
  destruct (from_service_account_json account_json_path) as [[]|e]; [|done].
  unfold GoogleCloudBlobStorage._init_container, Gcs.create_bucket. simpl.
  destruct (Gcs.create_refusal svc) as [[]|]; [done..|].
  destruct (Gcs.buckets svc !! bucket_name) as [b|] eqn:Hb; [done|]. simpl.
  unfold GoogleCloudBlobStorage.exists_, GoogleCloudBlobStorage.get,
    Gcs.blob_exists, Gcs.download_as_string. simpl.
  destruct (decide (bucket_name = GoogleCloudBlobStorage.bucket_name other))
    as [<-|Hne].
  - by rewrite lookup_insert_eq, Hb.
  - by rewrite lookup_insert_ne.
Qed.

(** X19: with a client and a service that does not turn the request down,
    the constructor returns the store and the bucket is there; constructing
    again returns the same store and leaves the buckets as they are. *)
Theorem cloud_init_idempotent :
  from_service_account_json account_json_path = Ok () →
  Gcs.create_refusal svc = None →
  ∃ self svc' svc'',
    GoogleCloudBlobStorage.__init__ from_service_account_json bucket_name
      account_json_path path_prefix svc = (Ok self, svc')
    ∧ is_Some (Gcs.buckets svc' !! bucket_name)
    ∧ GoogleCloudBlobStorage.__init__ from_service_account_json bucket_name
        account_json_path path_prefix svc' = (Ok self, svc'')
    ∧ Gcs.buckets svc'' = Gcs.buckets svc'.
Proof.
  intros Hclient Hfree. unfold GoogleCloudBlobStorage.__init__.
  rewrite Hclient.
  unfold GoogleCloudBlobStorage._init_container, Gcs.create_bucket. simpl.
  rewrite Hfree.
  destruct (Gcs.buckets svc !! bucket_name) as [b|] eqn:Hb; simpl.
  - do 3 eexists. split; [reflexivity|]. simpl. rewrite Hb. simpl.
    by split; [|split].
  - do 3 eexists. split; [reflexivity|]. simpl.
    rewrite lookup_insert_eq. simpl. by split; [|split].
Qed.

End CloudConstruction.

Lemma cloud_init_idempotent_witness :
  ∃ self svc' svc'',
    GoogleCloudBlobStorage.__init__ Sample.from_service_account_json "lfs"
      "account.json" (Some "/p") Sample.fresh_service = (Ok self, svc')
    ∧ is_Some (Gcs.buckets svc' !! "lfs")
    ∧ GoogleCloudBlobStorage.__init__ Sample.from_service_account_json "lfs"
        "account.json" (Some "/p") svc' = (Ok self, svc'')
    ∧ Gcs.buckets svc'' = Gcs.buckets svc'.
Proof.
  exact (cloud_init_idempotent Sample.from_service_account_json "lfs"
           "account.json" (Some "/p") Sample.fresh_service eq_refl eq_refl).
Defined.

(** X20: the signed URL is the URL of the bucket: the [href] offered for
    the upload of one object is the [href] offered for the download of any
    other object with the same lifetime, whatever the file names. *)
Theorem signed_url_same_for_all_keys (now : Z)
        (generate_signed_url : string → pydict → string)
        (self : GoogleCloudBlobStorage.t) (prefix oid prefix' oid' : string)
        (size size' expires_in : Z) (extra extra' : option (gmap string string)) :
  lookup_path ["actions"; "upload"; "href"]
    (PyDict (GoogleCloudBlobStorage.get_upload_action now generate_signed_url self
               prefix oid size expires_in extra))
  = lookup_path ["actions"; "download"; "href"]
      (PyDict (GoogleCloudBlobStorage.get_download_action now generate_signed_url
                 self prefix' oid' size' expires_in extra'))
  ∧ GoogleCloudBlobStorage._get_signed_url now generate_signed_url self prefix oid
      expires_in (GoogleCloudBlobStorage.filename_of extra)
    = GoogleCloudBlobStorage._get_signed_url now generate_signed_url self prefix'
        oid' expires_in (GoogleCloudBlobStorage.filename_of extra').
Proof. split; reflexivity. Qed.
